(** * Partha: account screens (Login, SignUp, ForgotPassword, Profile)

    A shallow embedding of the four screen controllers of the front end and
    of the pieces of the platform they call: the zod schemas behind
    [zodResolver], react-hook-form's [handleSubmit], the [useAuth()] context,
    and the Firestore / Storage calls of the Profile screen.

    Layout: definitions first (JavaScript values, pattern matching, schemas,
    the effect monad, the screens, a provider modelled from the spec), then
    the lemmas and the theorems about them. *)

From Stdlib Require Import ZArith NArith QArith Qpower Lia List Ascii String.
From Stdlib Require Import Decimal DecimalString DecimalPos DecimalN DecimalZ.
From stdpp Require Import base option list gmap strings.

Close Scope Q_scope.
Local Open Scope Z_scope.

(* ===================================================================== *)
(** ** JavaScript strings *)
(* ===================================================================== *)

Module JS.

(** A JavaScript string is a sequence of UTF-16 code units.  User input
    (emails, passwords, ages, file names) is kept in this form; the message
    literals of the source stay Rocq strings. *)
Abbreviation jsstring := (list N).

(** The code units of an ASCII literal of the source. *)
Definition js (s : string) : jsstring :=
  map N_of_ascii (list_ascii_of_string s).

(** [a === b] on strings. *)
Definition strict_eq (a b : jsstring) : bool := bool_decide (a = b).

(** [s.startsWith(p)]. *)
Fixpoint startsWith (p s : jsstring) : bool :=
  match p, s with
  | [], _ => true
  | _ :: _, [] => false
  | a :: p', b :: s' => (a =? b)%N && startsWith p' s'
  end.

(** Truthiness of a string: only the empty string is falsy. *)
Definition truthy (s : jsstring) : bool :=
  match s with [] => false | _ :: _ => true end.

(** [a || b] where [a] may be [null] / [undefined] / a string. *)
Definition or_else (a : option jsstring) (b : jsstring) : jsstring :=
  match a with
  | Some s => if truthy s then s else b
  | None => b
  end.

(** [a || undefined]. *)
Definition or_undefined (a : option jsstring) : option jsstring :=
  match a with
  | Some s => if truthy s then Some s else None
  | None => None
  end.

(** [String(n)] for an integer [n]. *)
Definition of_int (n : Z) : jsstring :=
  js (NilZero.string_of_int (Z.to_int n)).

Definition isDigit (c : N) : bool := ((48 <=? c) && (c <=? 57))%N.
Definition isUpper (c : N) : bool := ((65 <=? c) && (c <=? 90))%N.
Definition isLower (c : N) : bool := ((97 <=? c) && (c <=? 122))%N.
Definition isLetter (c : N) : bool := isUpper c || isLower c.

(** WhiteSpace and LineTerminator code points of ECMAScript: the characters
    [String.prototype.trim], [Number(...)] and the pattern escape [\s]
    treat as blank. *)
Definition isLineTerminator (c : N) : bool :=
  ((c =? 10) || (c =? 13) || (c =? 8232) || (c =? 8233))%N.

Definition isWhiteSpace (c : N) : bool :=
  ((c =? 9) || (c =? 11) || (c =? 12) || (c =? 32) || (c =? 160)
   || (c =? 5760) || ((8192 <=? c) && (c <=? 8202))
   || (c =? 8239) || (c =? 8287) || (c =? 12288) || (c =? 65279))%N.

Definition isStrWhiteSpaceChar (c : N) : bool :=
  isWhiteSpace c || isLineTerminator c.

Fixpoint trimStart (s : jsstring) : jsstring :=
  match s with
  | c :: s' => if isStrWhiteSpaceChar c then trimStart s' else s
  | [] => []
  end.

Definition trim (s : jsstring) : jsstring :=
  rev (trimStart (rev (trimStart s))).

End JS.
Import JS.

(* ===================================================================== *)
(** ** JavaScript numbers: [Number(string)], [isNaN], [>=] *)
(* ===================================================================== *)

Module Num.

(** A Number value: NaN, an infinity, or the finite binary64 value
    [m * 2^e].  The sign of zero is not kept: [isNaN] and [>=] do not see
    it. *)
Inductive Number :=
  | NaN
  | Infinity (negative : bool)
  | Finite (m e : Z).

Definition isNaN (x : Number) : bool :=
  match x with NaN => true | _ => false end.

Definition negate (x : Number) : Number :=
  match x with
  | NaN => NaN
  | Infinity s => Infinity (negb s)
  | Finite m e => Finite (- m) e
  end.

(** [m1 * 2^e1 <= m2 * 2^e2], both sides scaled to the smaller exponent. *)
Definition fin_leb (m1 e1 m2 e2 : Z) : bool :=
  let e := Z.min e1 e2 in
  m1 * 2 ^ (e1 - e) <=? m2 * 2 ^ (e2 - e).

(** [x >= y]: false as soon as one side is NaN. *)
Definition ge (x y : Number) : bool :=
  match x, y with
  | NaN, _ | _, NaN => false
  | Infinity false, _ => true
  | _, Infinity true => true
  | Infinity true, _ => false
  | _, Infinity false => false
  | Finite m1 e1, Finite m2 e2 => fin_leb m2 e2 m1 e1
  end.

(** The Number value of an integer literal of the source such as [18]. *)
Definition lit (n : Z) : Number := Finite n 0.

(** floor (log2 (n / d)) for [n, d > 0]. *)
Definition floor_log2_ratio (n d : Z) : Z :=
  let e0 := Z.log2 n - Z.log2 d in
  if 0 <=? e0
  then (if d * 2 ^ e0 <=? n then e0 else e0 - 1)
  else (if d <=? n * 2 ^ (- e0) then e0 else e0 - 1).

(** The integer nearest to [n / d], ties to even ([n >= 0], [d > 0]). *)
Definition round_half_even (n d : Z) : Z :=
  let q := n / d in
  let r := n mod d in
  match 2 * r ?= d with
  | Lt => q
  | Gt => q + 1
  | Eq => if Z.even q then q else q + 1
  end.

(** Round the positive rational [n / d] to binary64 (round to nearest, ties
    to even): 53 significant bits, exponents from -1022 (subnormals share
    the lowest one) to 1023, overflow to Infinity. *)
Definition round64_pos (n d : Z) : Number :=
  let e := Z.max (floor_log2_ratio n d) (-1022) in
  let sh := e - 52 in
  let m := if 0 <=? sh
           then round_half_even n (d * 2 ^ sh)
           else round_half_even (n * 2 ^ (- sh)) d in
  if (1023 <? e) || ((e =? 1023) && (2 ^ 53 <=? m))
  then Infinity false
  else Finite m sh.

(** The Number value for the mathematical value [n / d] ([d > 0]). *)
Definition round64 (n d : Z) : Number :=
  if n =? 0 then Finite 0 0
  else if 0 <? n then round64_pos n d
  else negate (round64_pos (- n) d).

(** The Number value for [m * 10^e]. *)
Definition of_decimal (m e : Z) : Number :=
  if 0 <=? e then round64 (m * 10 ^ e) 1 else round64 m (10 ^ (- e)).

(** *** StringToNumber

    The StringNumericLiteral grammar: optional blanks around a signed
    decimal literal (digits, fraction, exponent, or [Infinity]) or an
    unsigned binary / octal / hexadecimal integer literal; the empty
    (or blank) string is 0; anything else is NaN. *)

Fixpoint span_digits (s : jsstring) : jsstring * jsstring :=
  match s with
  | c :: s' =>
      if isDigit c
      then let '(ds, r) := span_digits s' in (c :: ds, r)
      else ([], s)
  | [] => ([], [])
  end.

Definition digit_value (c : N) : Z := Z.of_N c - 48.

Definition digits_value (ds : jsstring) : Z :=
  fold_left (fun acc c => 10 * acc + digit_value c) ds 0.

(** The value of a hexadecimal (octal, binary) digit below [base]. *)
Definition radix_digit (base : Z) (c : N) : option Z :=
  let v := if isDigit c then Some (Z.of_N c - 48)
           else if ((97 <=? c) && (c <=? 102))%N then Some (Z.of_N c - 87)
           else if ((65 <=? c) && (c <=? 70))%N then Some (Z.of_N c - 55)
           else None in
  match v with
  | Some d => if d <? base then Some d else None
  | None => None
  end.

Fixpoint radix_value (base : Z) (acc : Z) (s : jsstring) : option Z :=
  match s with
  | [] => Some acc
  | c :: s' =>
      match radix_digit base c with
      | Some d => radix_value base (base * acc + d) s'
      | None => None
      end
  end.

(** NonDecimalIntegerLiteral: a zero, a radix letter (b, o or x, in either
    case) and at least one digit of that radix. *)
Definition nonDecimalLiteral (s : jsstring) : option Number :=
  match s with
  | z :: p :: ((_ :: _) as ds) =>
      if (z =? 48)%N then
        let base := if ((p =? 120) || (p =? 88))%N then Some 16
                    else if ((p =? 111) || (p =? 79))%N then Some 8
                    else if ((p =? 98) || (p =? 66))%N then Some 2
                    else None in
        match base with
        | Some b =>
            match radix_value b 0 ds with
            | Some v => Some (round64 v 1)
            | None => None
            end
        | None => None
        end
      else None
  | _ => None
  end.

(** An optional sign: whether it is a minus, and what follows it. *)
Definition signed (s : jsstring) : bool * jsstring :=
  match s with
  | c :: r =>
      if (c =? 45)%N then (true, r)
      else if (c =? 43)%N then (false, r)
      else (false, s)
  | [] => (false, [])
  end.

(** ExponentPart_opt at the end of the literal: nothing, or [e] / [E], an
    optional sign and at least one digit, and nothing after it. *)
Definition exponentPart (s : jsstring) : option Z :=
  match s with
  | [] => Some 0
  | c :: r =>
      if ((c =? 101) || (c =? 69))%N then
        let '(neg, r1) := signed r in
        let '(ds, r2) := span_digits r1 in
        match ds, r2 with
        | _ :: _, [] => Some (if neg then - digits_value ds else digits_value ds)
        | _, _ => None
        end
      else None
  end.

(** The fraction after the integer part: a dot and the digits after it. *)
Definition fractionPart (s : jsstring) : jsstring * jsstring :=
  match s with
  | c :: r => if (c =? 46)%N then span_digits r else ([], s)
  | [] => ([], [])
  end.

(** StrUnsignedDecimalLiteral: [Infinity], or digits with an optional
    fraction and exponent, with a digit on at least one side of the dot. *)
Definition unsignedDecimalLiteral (s : jsstring) : option Number :=
  if strict_eq s (js "Infinity") then Some (Infinity false)
  else
    let '(ip, r1) := span_digits s in
    let '(fp, r2) := fractionPart r1 in
    match ip ++ fp with
    | [] => None
    | _ :: _ =>
        match exponentPart r2 with
        | Some ex =>
            Some (of_decimal (digits_value (ip ++ fp)) (ex - Z.of_nat (length fp)))
        | None => None
        end
    end.

(** StrDecimalLiteral: an optional sign before the unsigned literal. *)
Definition decimalLiteral (s : jsstring) : option Number :=
  let '(neg, r) := signed s in
  if neg then negate <$> unsignedDecimalLiteral r
  else unsignedDecimalLiteral r.

(** [Number(s)] for a string [s]. *)
Definition StringToNumber (s : jsstring) : Number :=
  match trim s with
  | [] => Finite 0 0
  | t =>
      match nonDecimalLiteral t with
      | Some v => v
      | None =>
          match decimalLiteral t with
          | Some v => v
          | None => NaN
          end
      end
  end.

(** The rational a finite Number stands for. *)
Definition value (m e : Z) : Q := (inject_Z m * 2 ^ e)%Q.

(** "A number that is at least [n]": not NaN, and [n] or more. *)
Definition number_at_least (n : Z) (x : Number) : Prop :=
  match x with
  | NaN => False
  | Infinity negative => negative = false
  | Finite m e => (inject_Z n <= value m e)%Q
  end.

End Num.

(* ===================================================================== *)
(** ** Patterns: [RegExp.prototype.test] on anchored patterns *)
(* ===================================================================== *)

Module Pattern.

(** The patterns of the schemas use literals, character classes,
    sequencing, alternation and repetition, between [^] and [$]. *)
Inductive regex :=
  | Void
  | Eps
  | Cls (p : N -> bool)
  | Seq (r1 r2 : regex)
  | Alt (r1 r2 : regex)
  | Star (r : regex).

(** [r+] and [r?]. *)
Definition Plus (r : regex) : regex := Seq r (Star r).
Definition Opt (r : regex) : regex := Alt Eps r.

(** A single literal character. *)
Definition Chr (c : N) : regex := Cls (N.eqb c).

Fixpoint nullable (r : regex) : bool :=
  match r with
  | Void => false
  | Eps => true
  | Cls _ => false
  | Seq r1 r2 => nullable r1 && nullable r2
  | Alt r1 r2 => nullable r1 || nullable r2
  | Star _ => true
  end.

(** Sequencing and alternation that drop the dead branches, to keep the
    residual patterns small. *)
Definition seq (r1 r2 : regex) : regex :=
  match r1, r2 with
  | Void, _ => Void
  | _, Void => Void
  | Eps, _ => r2
  | _, _ => Seq r1 r2
  end.

Definition alt (r1 r2 : regex) : regex :=
  match r1, r2 with
  | Void, _ => r2
  | _, Void => r1
  | _, _ => Alt r1 r2
  end.

(** The residual of [r] after reading the code unit [c]. *)
Fixpoint deriv (c : N) (r : regex) : regex :=
  match r with
  | Void => Void
  | Eps => Void
  | Cls p => if p c then Eps else Void
  | Seq r1 r2 =>
      if nullable r1
      then alt (seq (deriv c r1) r2) (deriv c r2)
      else seq (deriv c r1) r2
  | Alt r1 r2 => alt (deriv c r1) (deriv c r2)
  | Star r1 => seq (deriv c r1) (Star r1)
  end.

(** [/^r$/.test(s)]: the whole of [s] matches [r]. *)
Fixpoint test (r : regex) (s : jsstring) : bool :=
  match s with
  | [] => nullable r
  | c :: s' => test (deriv c r) s'
  end.

(** The strings a pattern denotes. *)
Inductive Matches : regex -> jsstring -> Prop :=
  | MEps : Matches Eps []
  | MCls p c : p c = true -> Matches (Cls p) [c]
  | MSeq r1 r2 s1 s2 :
      Matches r1 s1 -> Matches r2 s2 -> Matches (Seq r1 r2) (s1 ++ s2)
  | MAltL r1 r2 s : Matches r1 s -> Matches (Alt r1 r2) s
  | MAltR r1 r2 s : Matches r2 s -> Matches (Alt r1 r2) s
  | MStarNil r : Matches (Star r) []
  | MStarCons r s1 s2 :
      Matches r s1 -> Matches (Star r) s2 -> Matches (Star r) (s1 ++ s2).

(** Any character at all ([[\s\S]]), and [.] (no line terminator). *)
Definition anyChar : regex := Cls (fun _ => true).
Definition dot : regex := Cls (fun c => negb (isLineTerminator c)).

End Pattern.
Import Pattern.

(* ===================================================================== *)
(** ** zod schemas and the resolver *)
(* ===================================================================== *)

Module Zod.

(** An issue of a failed parse: where, and the message given in the
    schema. *)
Record ZodIssue := { path : list string; message : string }.

Inductive SafeParse (A : Type) :=
  | Success (data : A)
  | Failure (issues : list ZodIssue).
Arguments Success {A} data.
Arguments Failure {A} issues.

(** A string schema: the messages of the checks the value fails, in the
    order the checks were chained.  A failed check marks the value dirty
    and the later checks and refinements still run. *)
Definition StringSchema := jsstring -> list string.

(** [z.string()]. *)
Definition z_string : StringSchema := fun _ => [].

(** [.min(n, msg)]: fails when [value.length < n]. *)
Definition z_min (n : nat) (msg : string) (inner : StringSchema) : StringSchema :=
  fun v => inner v ++ (if (length v <? n)%nat then [msg] else []).

(** [.refine(check, { message })]. *)
Definition z_refine (check : jsstring -> bool) (msg : string)
    (inner : StringSchema) : StringSchema :=
  fun v => inner v ++ (if check v then [] else [msg]).

(** zod's email pattern (zod 3.23), case-insensitive and anchored at both
    ends.  After two negative lookaheads (no leading dot; no two dots in a
    row), it reads: any number of local characters (letters, digits,
    underscore, apostrophe, plus, dash, dot); one last local character
    (the same set without apostrophe and dot); the at sign; one or more
    domain labels, each a letter or digit, then letters, digits or dashes,
    then a dot; and a final label of two or more letters.
    Without the [u] flag, [i] only identifies the ASCII letters with their
    other case. *)
Definition alnum (c : N) : bool := isLetter c || isDigit c.

Definition localChar (c : N) : bool :=
  (alnum c || (c =? 95) || (c =? 39) || (c =? 43) || (c =? 45) || (c =? 46))%N.

Definition localLast (c : N) : bool :=
  (alnum c || (c =? 95) || (c =? 43) || (c =? 45))%N.

Definition labelChar (c : N) : bool := (alnum c || (c =? 45))%N.

Definition domainLabel : regex :=
  Seq (Cls alnum) (Seq (Star (Cls labelChar)) (Chr 46)).

Definition emailBody : regex :=
  Seq (Star (Cls localChar))
   (Seq (Cls localLast)
    (Seq (Chr 64)
     (Seq (Plus domainLabel)
      (Seq (Cls isLetter) (Plus (Cls isLetter)))))).

(** The two negative lookaheads at the start: no leading dot, no two dots
    in a row anywhere after zero or more [.] characters. *)
Definition leadingDot : regex := Seq (Chr 46) (Star anyChar).
Definition doubleDot : regex :=
  Seq (Star dot) (Seq (Chr 46) (Seq (Chr 46) (Star anyChar))).

Definition emailRegex_test (s : jsstring) : bool :=
  negb (test leadingDot s) && negb (test doubleDot s) && test emailBody s.

(** [.email(msg)]. *)
Definition z_email (msg : string) (inner : StringSchema) : StringSchema :=
  fun v => inner v ++ (if emailRegex_test v then [] else [msg]).

(** The issues of the field [name] of an object schema. *)
Definition field (name : string) (schema : StringSchema) (v : jsstring)
    : list ZodIssue :=
  map (fun m => {| path := [name]; message := m |}) (schema v).

(** [z.object({...})] over string fields, optionally followed by
    [.refine(check, { message, path })] on the whole object: the field
    issues in the order of the shape, then the object-level one. *)
Definition z_object {A : Type} (fields : A -> list ZodIssue)
    (refinements : A -> list ZodIssue) (v : A) : SafeParse A :=
  match fields v ++ refinements v with
  | [] => Success v
  | issues => Failure issues
  end.

(** [path.join('.')]. *)
Fixpoint join_path (p : list string) : string :=
  match p with
  | [] => ""
  | [k] => k
  | k :: p' => k ++ "." ++ join_path p'
  end.

(** The resolver's [parseErrorSchema]: one message per field path, the
    first issue of a path wins. *)
Definition parseErrorSchema (issues : list ZodIssue) : gmap string string :=
  fold_left
    (fun errors i =>
       let k := join_path (path i) in
       match errors !! k with
       | Some _ => errors
       | None => <[k := message i]> errors
       end)
    issues ∅.

(** The messages a parse result holds for the path [p]. *)
Definition violations {A : Type} (r : SafeParse A) (p : list string)
    : list string :=
  match r with
  | Success _ => []
  | Failure issues => message <$> filter (fun i => path i = p) issues
  end.

End Zod.

(* ===================================================================== *)
(** ** Dates: [Date.now()] and [toISOString] *)
(* ===================================================================== *)

Module JSDate.

(** [w] decimal digits of [n], zero-padded (the low [w] digits). *)
Fixpoint pad (w : nat) (n : Z) : jsstring :=
  match w with
  | O => []
  | S w' => pad w' (n / 10) ++ [Z.to_N (48 + n mod 10)]
  end.

(** Year, month and day of the proleptic Gregorian calendar for a day
    number counted from 1970-01-01. *)
Definition civil_from_days (days : Z) : Z * Z * Z :=
  let z := days + 719468 in
  let era := z / 146097 in
  let doe := z - era * 146097 in
  let yoe := (doe - doe / 1460 + doe / 36524 - doe / 146096) / 365 in
  let doy := doe - (365 * yoe + yoe / 4 - yoe / 100) in
  let mp := (5 * doy + 2) / 153 in
  let d := doy - (153 * mp + 2) / 5 + 1 in
  let m := if mp <? 10 then mp + 3 else mp - 9 in
  let y := yoe + era * 400 + (if m <=? 2 then 1 else 0) in
  (y, m, d).

(** [new Date(ms).toISOString()]: [YYYY-MM-DDTHH:mm:ss.sssZ], with a signed
    six-digit year outside 0..9999. *)
Definition toISOString (ms : Z) : jsstring :=
  let days := ms / 86400000 in
  let t := ms mod 86400000 in
  let '(y, m, d) := civil_from_days days in
  let year := if (0 <=? y) && (y <=? 9999) then pad 4 y
              else (if y <? 0 then js "-" else js "+") ++ pad 6 (Z.abs y) in
  year ++ js "-" ++ pad 2 m ++ js "-" ++ pad 2 d ++ js "T"
       ++ pad 2 (t / 3600000) ++ js ":" ++ pad 2 (t / 60000 mod 60) ++ js ":"
       ++ pad 2 (t / 1000 mod 60) ++ js "." ++ pad 3 (t mod 1000) ++ js "Z".

End JSDate.

(* ===================================================================== *)
(** ** The auth context ([useAuth()]) *)
(* ===================================================================== *)

Module Auth.

(** The identity the provider hands out ([currentUser]). *)
Record User := {
  uid : jsstring;
  email : option jsstring;
  displayName : option jsstring;
  photoURL : option jsstring
}.

(** What a rejected promise carries.  The screens never look at it. *)
Inductive Err :=
  | InvalidCredentials
  | ExternalAuthFailed
  | AccountCreationFailed
  | ResetFailed
  | UpdateFailed
  | SignOutFailed
  | FetchFailed
  | PersistenceFailed
  | UploadFailed.

(** A settled promise. *)
Inductive Outcome (T : Type) :=
  | Resolved (v : T)
  | Rejected (e : Err).
Arguments Resolved {T} v.
Arguments Rejected {T} e.

Definition resolved {T} (o : Outcome T) : bool :=
  match o with Resolved _ => true | Rejected _ => false end.

(** The value of [useAuth()]: the current identity and the operations of
    the context, over the state [A] of whatever provider backs it.  The
    context itself (contexts/AuthContext) is outside the sources at hand,
    so the screens are embedded over any implementation of it. *)
Class AuthContext (A : Type) := {
  currentUser : A -> option User;
  signIn : jsstring -> jsstring -> A -> Outcome unit * A;
  googleSignIn : A -> Outcome unit * A;
  signUp : jsstring -> jsstring -> A -> Outcome unit * A;
  resetPassword : jsstring -> A -> Outcome unit * A;
  updateUserProfile : jsstring -> option jsstring -> A -> Outcome unit * A;
  logout : A -> Outcome unit * A
}.

End Auth.

(* ===================================================================== *)
(** ** Firestore and Storage (the firebase SDK calls of the Profile screen) *)
(* ===================================================================== *)

Module Firebase.

Import Auth.

(** The field values the Profile screen writes: strings and [null]. *)
Inductive FieldValue :=
  | VString (s : jsstring)
  | VNull.

#[global] Instance FieldValue_eq_dec : EqDecision FieldValue.
Proof. solve_decision. Defined.

(** A selected file, as far as the screen looks at it. *)
Record File := {
  name : jsstring;
  type : jsstring;
  size : Z
}.

#[global] Instance File_eq_dec : EqDecision File.
Proof. solve_decision. Defined.

Inductive SdkOp := GetDoc | SetDoc | UploadBytes | GetDownloadURL.

(** The hosted services: the [users] collection (document id to fields),
    the storage bucket (object path to file), the download URL the bucket
    serves an object under, and which operations currently fail (network,
    permissions, quota). *)
Record Services := {
  users : gmap jsstring (gmap string FieldValue);
  bucket : gmap jsstring File;
  downloadURL : jsstring -> jsstring;
  outage : SdkOp -> bool
}.

Definition with_users (f : gmap jsstring (gmap string FieldValue) ->
                           gmap jsstring (gmap string FieldValue))
    (b : Services) : Services :=
  {| users := f (users b); bucket := bucket b;
     downloadURL := downloadURL b; outage := outage b |}.

Definition with_bucket (f : gmap jsstring File -> gmap jsstring File)
    (b : Services) : Services :=
  {| users := users b; bucket := f (bucket b);
     downloadURL := downloadURL b; outage := outage b |}.

(** [getDoc(doc(db, "users", id))]: the snapshot's data, [None] when
    [exists()] is false. *)
Definition getDoc (id : jsstring) (b : Services)
    : Outcome (option (gmap string FieldValue)) * Services :=
  if outage b GetDoc then (Rejected FetchFailed, b)
  else (Resolved (users b !! id), b).

(** [{ merge: true }]: the written fields replace the stored ones of the
    same name, every other stored field stays. *)
Definition merge (data stored : gmap string FieldValue)
    : gmap string FieldValue :=
  data ∪ stored.

(** [setDoc(doc(db, "users", id), data, { merge: true })]. *)
Definition setDoc_merge (id : jsstring) (data : gmap string FieldValue)
    (b : Services) : Outcome unit * Services :=
  if outage b SetDoc then (Rejected PersistenceFailed, b)
  else (Resolved tt,
        with_users (fun u => <[id := merge data (default ∅ (u !! id))]> u) b).

(** [uploadBytes(ref(storage, path), file)]. *)
Definition uploadBytes (path : jsstring) (file : File) (b : Services)
    : Outcome unit * Services :=
  if outage b UploadBytes then (Rejected UploadFailed, b)
  else (Resolved tt, with_bucket (fun o => <[path := file]> o) b).

(** [getDownloadURL(ref(storage, path))]: fails when nothing is stored
    under [path]. *)
Definition getDownloadURL (path : jsstring) (b : Services)
    : Outcome jsstring * Services :=
  if outage b GetDownloadURL then (Rejected UploadFailed, b)
  else match bucket b !! path with
       | Some _ => (Resolved (downloadURL b path), b)
       | None => (Rejected UploadFailed, b)
       end.

End Firebase.

(* ===================================================================== *)
(** ** The runtime of a screen: state cells, router, remote calls *)
(* ===================================================================== *)

Module Runtime.

Import Auth Firebase.

(** The remote calls a screen can issue. *)
Inductive Call :=
  | CallSignIn (email password : jsstring)
  | CallGoogleSignIn
  | CallSignUp (email password : jsstring)
  | CallResetPassword (email : jsstring)
  | CallUpdateUserProfile (displayName : jsstring) (photoURL : option jsstring)
  | CallLogout
  | CallGetDoc (id : jsstring)
  | CallSetDoc (id : jsstring) (data : gmap string FieldValue)
  | CallUploadBytes (path : jsstring) (file : File)
  | CallGetDownloadURL (path : jsstring).

#[global] Instance Call_eq_dec : EqDecision Call.
Proof. solve_decision. Defined.

(** The form values of the Profile screen ([useForm]'s values). *)
Record ProfileFormData := {
  username : jsstring;
  dob : jsstring;
  mobileNumber : jsstring;
  address : jsstring
}.

(** The [useState] cells of the screens.  Login and SignUp use [error] and
    [isLoading]; ForgotPassword adds [message]; Profile uses all of them,
    together with the values of its form. *)
Record UIState := {
  error : string;
  message : string;
  isLoading : bool;
  profileImage : option jsstring;
  fetchingUserData : bool;
  formValues : ProfileFormData
}.

Section WithAuth.

Context {A : Type}.

(** Everything a handler can read or change: the cells of the mounted
    screen, [formState.errors], the router's location, the auth context,
    the hosted services, the clock, and the log of the remote calls issued
    so far, each with whether it resolved. *)
Record Sys := {
  ui : UIState;
  formErrors : gmap string string;
  location : string;
  auth : A;
  services : Services;
  clock : Z;
  calls : list (Call * bool)
}.

Definition with_ui (f : UIState -> UIState) (s : Sys) : Sys :=
  {| ui := f (ui s); formErrors := formErrors s; location := location s;
     auth := auth s; services := services s; clock := clock s;
     calls := calls s |}.

(** An asynchronous function body: it runs from a state to a settled
    outcome and a state. *)
Definition M (T : Type) : Type := Sys -> Outcome T * Sys.

#[global] Instance M_ret : MRet M := fun T v s => (Resolved v, s).

#[global] Instance M_bind : MBind M := fun T U k c s =>
  match c s with
  | (Resolved v, s') => k v s'
  | (Rejected e, s') => (Rejected e, s')
  end.

(** [try { body } catch (err) { handler } finally { final }]. *)
Definition try_catch_finally (body : M unit) (handler : Err -> M unit)
    (final : M unit) : M unit :=
  fun s =>
    let '(r1, s1) := body s in
    let '(r2, s2) := match r1 with
                     | Resolved v => (Resolved v, s1)
                     | Rejected e => handler e s1
                     end in
    let '(r3, s3) := final s2 in
    match r3 with
    | Resolved _ => (r2, s3)
    | Rejected e => (Rejected e, s3)
    end.

(** [try { body } catch (err) { handler }]. *)
Definition try_catch (body : M unit) (handler : Err -> M unit) : M unit :=
  fun s =>
    match body s with
    | (Resolved v, s1) => (Resolved v, s1)
    | (Rejected e, s1) => handler e s1
    end.

(** The values a handler closes over: those of the render that created
    it. *)
Definition rendered : M Sys := fun s => (Resolved s, s).

(** State setters. *)
Definition setError (msg : string) : M unit := fun s =>
  (Resolved tt,
   with_ui (fun u => {| error := msg; message := message u;
                        isLoading := isLoading u;
                        profileImage := profileImage u;
                        fetchingUserData := fetchingUserData u;
                        formValues := formValues u |}) s).

Definition setMessage (msg : string) : M unit := fun s =>
  (Resolved tt,
   with_ui (fun u => {| error := error u; message := msg;
                        isLoading := isLoading u;
                        profileImage := profileImage u;
                        fetchingUserData := fetchingUserData u;
                        formValues := formValues u |}) s).

Definition setIsLoading (b : bool) : M unit := fun s =>
  (Resolved tt,
   with_ui (fun u => {| error := error u; message := message u;
                        isLoading := b;
                        profileImage := profileImage u;
                        fetchingUserData := fetchingUserData u;
                        formValues := formValues u |}) s).

Definition setProfileImage (url : jsstring) : M unit := fun s =>
  (Resolved tt,
   with_ui (fun u => {| error := error u; message := message u;
                        isLoading := isLoading u;
                        profileImage := Some url;
                        fetchingUserData := fetchingUserData u;
                        formValues := formValues u |}) s).

Definition setFetchingUserData (b : bool) : M unit := fun s =>
  (Resolved tt,
   with_ui (fun u => {| error := error u; message := message u;
                        isLoading := isLoading u;
                        profileImage := profileImage u;
                        fetchingUserData := b;
                        formValues := formValues u |}) s).

(** [reset(values)] of [useForm]. *)
Definition reset (values : ProfileFormData) : M unit := fun s =>
  (Resolved tt,
   with_ui (fun u => {| error := error u; message := message u;
                        isLoading := isLoading u;
                        profileImage := profileImage u;
                        fetchingUserData := fetchingUserData u;
                        formValues := values |}) s).

(** [navigate(to)]. *)
Definition navigate (to : string) : M unit := fun s =>
  (Resolved tt,
   {| ui := ui s; formErrors := formErrors s; location := to;
      auth := auth s; services := services s; clock := clock s;
      calls := calls s |}).

Definition setFormErrors (errs : gmap string string) : M unit := fun s =>
  (Resolved tt,
   {| ui := ui s; formErrors := errs; location := location s;
      auth := auth s; services := services s; clock := clock s;
      calls := calls s |}).

(** [Date.now()]. *)
Definition now : M Z := fun s => (Resolved (clock s), s).

(** [await] on an operation of the auth context: the call is logged with
    its outcome and the context moves to its new state. *)
Definition await_auth {T} (c : Call) (op : A -> Outcome T * A) : M T :=
  fun s =>
    let '(r, a) := op (auth s) in
    (r, {| ui := ui s; formErrors := formErrors s; location := location s;
           auth := a; services := services s; clock := clock s;
           calls := calls s ++ [(c, resolved r)] |}).

(** [await] on a call of the firebase SDK. *)
Definition await_sdk {T} (c : Call) (op : Services -> Outcome T * Services)
    : M T :=
  fun s =>
    let '(r, b) := op (services s) in
    (r, {| ui := ui s; formErrors := formErrors s; location := location s;
           auth := auth s; services := b; clock := clock s;
           calls := calls s ++ [(c, resolved r)] |}).

(** [handleSubmit(onValid)] with [zodResolver(schema)]: the values are
    parsed on every submission; [onValid] runs only on a successful parse,
    otherwise the issues become [formState.errors]. *)
Definition handleSubmit {D : Type} (schema : D -> Zod.SafeParse D)
    (onValid : D -> M unit) (values : D) : M unit :=
  match schema values with
  | Zod.Success data => setFormErrors ∅ ;; onValid data
  | Zod.Failure issues => setFormErrors (Zod.parseErrorSchema issues)
  end.

(** The remote calls logged after the state [s0]. *)
Definition issued (s0 s1 : Sys) : list (Call * bool) :=
  drop (length (calls s0)) (calls s1).

End WithAuth.

Arguments Sys A : clear implicits.
Arguments M A T : clear implicits.

(** The operations [useAuth()] hands to a screen, and the SDK calls of the
    Profile screen, as awaited calls. *)
Section Calls.

Context {A : Type} `{AC : AuthContext A}.

Definition signIn (email password : jsstring) : M A unit :=
  await_auth (CallSignIn email password) (Auth.signIn email password).

Definition googleSignIn : M A unit :=
  await_auth CallGoogleSignIn Auth.googleSignIn.

Definition signUp (email password : jsstring) : M A unit :=
  await_auth (CallSignUp email password) (Auth.signUp email password).

Definition resetPassword (email : jsstring) : M A unit :=
  await_auth (CallResetPassword email) (Auth.resetPassword email).

Definition updateUserProfile (displayName : jsstring)
    (photoURL : option jsstring) : M A unit :=
  await_auth (CallUpdateUserProfile displayName photoURL)
             (Auth.updateUserProfile displayName photoURL).

Definition logout : M A unit := await_auth CallLogout Auth.logout.

Definition getDoc (id : jsstring) : M A (option (gmap string FieldValue)) :=
  await_sdk (CallGetDoc id) (Firebase.getDoc id).

Definition setDoc_merge (id : jsstring) (data : gmap string FieldValue)
    : M A unit :=
  await_sdk (CallSetDoc id data) (Firebase.setDoc_merge id data).

Definition uploadBytes (path : jsstring) (file : File) : M A unit :=
  await_sdk (CallUploadBytes path file) (Firebase.uploadBytes path file).

Definition getDownloadURL (path : jsstring) : M A jsstring :=
  await_sdk (CallGetDownloadURL path) (Firebase.getDownloadURL path).

End Calls.

End Runtime.

(* ===================================================================== *)
(** ** Login *)
(* ===================================================================== *)

Module Login.

Import Auth Firebase Runtime Zod.

Record LoginFormData := {
  email : jsstring;
  password : jsstring
}.

Definition loginSchema : LoginFormData -> SafeParse LoginFormData :=
  z_object
    (fun d =>
       field "email" (z_email "Please enter a valid email address" z_string)
             (email d)
       ++ field "password"
             (z_min 6 "Password must be at least 6 characters" z_string)
             (password d))
    (fun _ => []).

(** The cells of a freshly mounted Login screen. *)
Definition initial : UIState :=
  {| error := ""; Runtime.message := ""; isLoading := false;
     profileImage := None; fetchingUserData := false;
     formValues := {| username := []; dob := []; mobileNumber := [];
                      address := [] |} |}.


Section Handlers.

Context {A : Type} `{AC : AuthContext A}.

Definition onSubmit (data : LoginFormData) : M A unit :=
  try_catch_finally
    (setError "" ;;
     setIsLoading true ;;
     signIn (email data) (password data) ;;
     navigate "/profile")
    (fun _ => setError "Failed to sign in. Please check your credentials.")
    (setIsLoading false).

Definition handleGoogleSignIn : M A unit :=
  try_catch_finally
    (setError "" ;;
     setIsLoading true ;;
     googleSignIn ;;
     navigate "/profile")
    (fun _ => setError "Failed to sign in with Google.")
    (setIsLoading false).

(** What the form's [onSubmit] attribute runs. *)
Definition submit (values : LoginFormData) : M A unit :=
  handleSubmit loginSchema onSubmit values.

End Handlers.

End Login.

(* ===================================================================== *)
(** ** SignUp *)
(* ===================================================================== *)

Module SignUp.

Import Auth Firebase Runtime Zod.

Record SignUpFormData := {
  username : jsstring;
  email : jsstring;
  password : jsstring;
  confirmPassword : jsstring;
  age : jsstring
}.

(** The refinement of the age field: the value, read as a Number, is not
    NaN and is at least 18. *)
Definition age_check (val : jsstring) : bool :=
  negb (Num.isNaN (Num.StringToNumber val))
  && Num.ge (Num.StringToNumber val) (Num.lit 18).

Definition signUpSchema : SignUpFormData -> SafeParse SignUpFormData :=
  z_object
    (fun d =>
       field "username"
             (z_min 3 "Username must be at least 3 characters" z_string)
             (username d)
       ++ field "email" (z_email "Please enter a valid email address" z_string)
             (email d)
       ++ field "password"
             (z_min 6 "Password must be at least 6 characters" z_string)
             (password d)
       ++ field "confirmPassword" z_string (confirmPassword d)
       ++ field "age"
             (z_refine age_check "You must be at least 18 years old" z_string)
             (age d))
    (fun d =>
       if strict_eq (password d) (confirmPassword d) then []
       else [ {| path := ["confirmPassword"];
                 Zod.message := "Passwords don't match" |} ]).

Definition initial : UIState := Login.initial.

Section Handlers.

Context {A : Type} `{AC : AuthContext A}.

Definition onSubmit (data : SignUpFormData) : M A unit :=
  try_catch_finally
    (setError "" ;;
     setIsLoading true ;;
     signUp (email data) (password data) ;;
     updateUserProfile (username data) None ;;
     navigate "/profile")
    (fun _ => setError "Failed to create an account.")
    (setIsLoading false).

Definition submit (values : SignUpFormData) : M A unit :=
  handleSubmit signUpSchema onSubmit values.

End Handlers.

End SignUp.

(* ===================================================================== *)
(** ** ForgotPassword *)
(* ===================================================================== *)

Module ForgotPassword.

Import Auth Firebase Runtime Zod.

Record ForgotPasswordFormData := { email : jsstring }.

Definition forgotPasswordSchema
    : ForgotPasswordFormData -> SafeParse ForgotPasswordFormData :=
  z_object
    (fun d =>
       field "email" (z_email "Please enter a valid email address" z_string)
             (email d))
    (fun _ => []).

Definition initial : UIState := Login.initial.

Section Handlers.

Context {A : Type} `{AC : AuthContext A}.

Definition onSubmit (data : ForgotPasswordFormData) : M A unit :=
  try_catch_finally
    (setMessage "" ;;
     setError "" ;;
     setIsLoading true ;;
     resetPassword (email data) ;;
     setMessage "Check your inbox for password reset instructions.")
    (fun _ =>
       setError "Failed to reset password. Please check your email address.")
    (setIsLoading false).

Definition submit (values : ForgotPasswordFormData) : M A unit :=
  handleSubmit forgotPasswordSchema onSubmit values.

End Handlers.

End ForgotPassword.

(* ===================================================================== *)
(** ** Profile *)
(* ===================================================================== *)

Module Profile.

Import Auth Firebase Runtime Zod.

(** The class of the mobile-number pattern: digits, blanks, dashes and
    parentheses; the pattern is an optional plus sign and one or more of
    these. *)
Definition mobileChar (c : N) : bool :=
  (isDigit c || isStrWhiteSpaceChar c || (c =? 45) || (c =? 40) || (c =? 41))%N.

Definition mobileRegex : regex :=
  Seq (Opt (Chr 43)) (Plus (Cls mobileChar)).

Definition profileSchema : ProfileFormData -> SafeParse ProfileFormData :=
  z_object
    (fun d =>
       field "username"
             (z_min 3 "Username must be at least 3 characters" z_string)
             (username d)
       ++ field "dob" (z_refine truthy "Date of birth is required" z_string)
             (dob d)
       ++ field "mobileNumber"
             (z_refine (test mobileRegex) "Please enter a valid mobile number"
                (z_min 10 "Mobile number must be at least 10 digits" z_string))
             (mobileNumber d)
       ++ field "address"
             (z_min 5 "Address must be at least 5 characters" z_string)
             (address d))
    (fun _ => []).

(** [useForm]'s [defaultValues]. *)
Definition defaultValues (currentUser : option User) : ProfileFormData :=
  {| username := or_else (currentUser ≫= displayName) [];
     dob := [];
     mobileNumber := [];
     address := [] |}.

(** The cells of a freshly mounted Profile screen. *)
Definition initial (currentUser : option User) : UIState :=
  {| error := ""; Runtime.message := ""; isLoading := false;
     profileImage := None; fetchingUserData := true;
     formValues := defaultValues currentUser |}.

(** The form is rendered (instead of the spinner) once the fetch is over. *)
Definition interactive (u : UIState) : bool := negb (fetchingUserData u).

(** A string field of the fetched document ([userData.username] and the
    like); [null] and missing fields are falsy. *)
Definition str_field (d : gmap string FieldValue) (k : string)
    : option jsstring :=
  match d !! k with
  | Some (VString s) => Some s
  | Some VNull | None => None
  end.

(** A state value or [null] as a field value. *)
Definition nullable (v : option jsstring) : FieldValue :=
  match v with Some s => VString s | None => VNull end.

(** The object literal [onSubmit] hands to [setDoc]. *)
Definition record (data : ProfileFormData) (profileImage : option jsstring)
    (currentUser : User) (t : Z) : gmap string FieldValue :=
  <["username" := VString (username data)]>
  (<["dob" := VString (dob data)]>
  (<["mobileNumber" := VString (mobileNumber data)]>
  (<["address" := VString (address data)]>
  (<["photoURL" := nullable profileImage]>
  (<["email" := nullable (Auth.email currentUser)]>
  (<["updatedAt" := VString (JSDate.toISOString t)]> ∅)))))).

(** The names of the fields of that object literal. *)
Definition writtenFields : list string :=
  ["username"; "dob"; "mobileNumber"; "address"; "photoURL"; "email";
   "updatedAt"].

(** The storage key of an uploaded photo. *)
Definition photoPath (currentUser : option User) (t : Z) (file : File)
    : jsstring :=
  js "profileImages/"
  ++ match currentUser with Some u => uid u | None => js "undefined" end
  ++ js "/" ++ of_int t ++ js "-" ++ name file.

Section Handlers.

Context {A : Type} `{AC : AuthContext A}.

(** [if (v) setProfileImage(v)]. *)
Definition setProfileImage_if (v : option jsstring) : M A unit :=
  match or_undefined v with
  | Some url => setProfileImage url
  | None => mret tt
  end.

(** The effect run on mount. *)
Definition fetchUserData : M A unit :=
  r ← rendered;
  match currentUser (auth r) with
  | None => mret tt
  | Some cu =>
      try_catch_finally
        (setFetchingUserData true ;;
         userDoc ← getDoc (uid cu);
         match userDoc with
         | Some userData =>
             match or_undefined (str_field userData "photoURL") with
             | Some url => setProfileImage url
             | None => setProfileImage_if (photoURL cu)
             end ;;
             reset
               {| username := or_else (str_field userData "username")
                                (or_else (displayName cu) []);
                  dob := or_else (str_field userData "dob") [];
                  mobileNumber := or_else (str_field userData "mobileNumber") [];
                  address := or_else (str_field userData "address") [] |}
         | None =>
             reset {| username := or_else (displayName cu) [];
                      dob := []; mobileNumber := []; address := [] |} ;;
             setProfileImage_if (photoURL cu)
         end)
        (fun _ => mret tt)
        (setFetchingUserData false)
  end.

Definition handleLogout : M A unit :=
  try_catch
    (logout ;; navigate "/login")
    (fun _ => setError "Failed to log out.").

Definition handleImageChange (file : option File) : M A unit :=
  r ← rendered;
  match file with
  | None => mret tt
  | Some file =>
      if negb (startsWith (js "image/") (type file))
      then setError "Please select an image file (PNG, JPG, etc.)"
      else if 5 * 1024 * 1024 <? size file
      then setError "Image size should be less than 5MB"
      else
        try_catch
          (setIsLoading true ;;
           t ← now;
           let fileRef := photoPath (currentUser (auth r)) t file in
           uploadBytes fileRef file ;;
           downloadURL ← getDownloadURL fileRef;
           setProfileImage downloadURL ;;
           setIsLoading false)
          (fun _ => setError "Failed to upload image." ;; setIsLoading false)
  end.

Definition onSubmit (data : ProfileFormData) : M A unit :=
  r ← rendered;
  try_catch_finally
    (setMessage "" ;;
     setError "" ;;
     setIsLoading true ;;
     updateUserProfile (username data) (or_undefined (profileImage (ui r))) ;;
     match currentUser (auth r) with
     | Some cu =>
         t ← now;
         setDoc_merge (uid cu) (record data (profileImage (ui r)) cu t)
     | None => mret tt
     end ;;
     setMessage "Profile updated successfully!")
    (fun _ => setError "Failed to update profile.")
    (setIsLoading false).

Definition submit (values : ProfileFormData) : M A unit :=
  handleSubmit profileSchema onSubmit values.

End Handlers.

End Profile.

(* ===================================================================== *)
(** ** A session provider behind the auth context *)
(* ===================================================================== *)

Module Provider.

Import Auth.

(** Modelled from the spec: the operations of the session provider behind
    contexts/AuthContext (not among the sources), one per operation of
    section 4.2. *)
Inductive AuthOp :=
  | OpSignIn | OpGoogleSignIn | OpSignUp | OpResetPassword
  | OpUpdateProfile | OpSignOut.

(** Modelled from the spec: an account of the session provider (the
    provider and contexts/AuthContext are not among the sources).  An
    identity has an opaque id, an email, an optional display name and an
    optional photo reference; it is created on sign-up. *)
Record Account := {
  password : option jsstring;
  identity : User
}.

(** Modelled from the spec: the state of the session provider behind
    contexts/AuthContext, which is not among the sources.  It holds the
    accounts by email, who is signed in, the addresses a reset message was
    dispatched to, the accounts with a reset under way, the account the
    external identity provider vouches for (none when the user cancels),
    the password policy applied on sign-up, and which operations currently
    fail for reasons of their own. *)
Record State := {
  accounts : gmap jsstring Account;
  session : option jsstring;
  outbox : list jsstring;
  pendingResets : list jsstring;
  external : option jsstring;
  policy : jsstring -> bool;
  failing : AuthOp -> bool
}.

(** Modelled from the spec: the provider state (not among the sources)
    with another session, or with other accounts. *)
Definition with_session (v : option jsstring) (p : State) : State :=
  {| accounts := accounts p; session := v; outbox := outbox p;
     pendingResets := pendingResets p; external := external p;
     policy := policy p; failing := failing p |}.

Definition with_accounts (f : gmap jsstring Account -> gmap jsstring Account)
    (p : State) : State :=
  {| accounts := f (accounts p); session := session p; outbox := outbox p;
     pendingResets := pendingResets p; external := external p;
     policy := policy p; failing := failing p |}.

(** Modelled from the spec: the current identity of the session provider
    (contexts/AuthContext is not among the sources): the identity of the
    signed-in account, none when anonymous. *)
Definition currentUser (p : State) : option User :=
  e ← session p; identity <$> accounts p !! e.

(** Modelled from the spec: sign-in(email, password) of the missing
    contexts/AuthContext: an authenticated session, or fails with
    InvalidCredentials. *)
Definition signIn (e pw : jsstring) (p : State) : Outcome unit * State :=
  if failing p OpSignIn then (Rejected InvalidCredentials, p)
  else match accounts p !! e with
       | Some acct =>
           if decide (password acct = Some pw)
           then (Resolved tt, with_session (Some e) p)
           else (Rejected InvalidCredentials, p)
       | None => (Rejected InvalidCredentials, p)
       end.

(** Modelled from the spec: sign-in-with-external-provider() of the missing
    contexts/AuthContext: an authenticated session, or fails with
    ExternalAuthFailed (including user-cancelled). *)
Definition googleSignIn (p : State) : Outcome unit * State :=
  if failing p OpGoogleSignIn then (Rejected ExternalAuthFailed, p)
  else match external p with
       | Some e =>
           match accounts p !! e with
           | Some _ => (Resolved tt, with_session (Some e) p)
           | None => (Rejected ExternalAuthFailed, p)
           end
       | None => (Rejected ExternalAuthFailed, p)
       end.

(** Modelled from the spec: sign-up(email, password) of the missing
    contexts/AuthContext: a new authenticated session, or fails with
    AccountCreationFailed (email already in use, weak password). *)
Definition signUp (e pw : jsstring) (p : State) : Outcome unit * State :=
  if failing p OpSignUp then (Rejected AccountCreationFailed, p)
  else match accounts p !! e with
       | Some _ => (Rejected AccountCreationFailed, p)
       | None =>
           if policy p pw
           then (Resolved tt,
                 with_session (Some e)
                   (with_accounts
                      (fun m =>
                         <[e := {| password := Some pw;
                                   identity := {| uid := e; email := Some e;
                                                  displayName := None;
                                                  photoURL := None |} |}]> m)
                      p))
           else (Rejected AccountCreationFailed, p)
       end.

(** Modelled from the spec: reset-password(email) of the missing
    contexts/AuthContext: success means a reset message was dispatched,
    not that the account exists; when the email does not exist no reset is
    under way afterwards, and the caller is not told. *)
Definition resetPassword (e : jsstring) (p : State) : Outcome unit * State :=
  if failing p OpResetPassword then (Rejected ResetFailed, p)
  else (Resolved tt,
        {| accounts := accounts p; session := session p;
           outbox := outbox p ++ [e];
           pendingResets := match accounts p !! e with
                            | Some _ => pendingResets p ++ [e]
                            | None => pendingResets p
                            end;
           external := external p; policy := policy p;
           failing := failing p |}).

(** Modelled from the spec: update-profile-identity(display-name,
    photo-reference) of the missing contexts/AuthContext: mutates the
    identity's display name and photo only; fails with UpdateFailed.  A
    photo reference left out keeps the stored one. *)
Definition updateUserProfile (name : jsstring) (photo : option jsstring)
    (p : State) : Outcome unit * State :=
  if failing p OpUpdateProfile then (Rejected UpdateFailed, p)
  else match session p with
       | Some e =>
           match accounts p !! e with
           | Some acct =>
               let u := identity acct in
               (Resolved tt,
                with_accounts
                  (fun m =>
                     <[e := {| password := password acct;
                               identity :=
                                 {| uid := uid u; email := email u;
                                    displayName := Some name;
                                    photoURL := match photo with
                                                | Some url => Some url
                                                | None => photoURL u
                                                end |} |}]> m)
                  p)
           | None => (Rejected UpdateFailed, p)
           end
       | None => (Rejected UpdateFailed, p)
       end.

(** Modelled from the spec: sign-out() of the missing
    contexts/AuthContext: clears the session; idempotent. *)
Definition logout (p : State) : Outcome unit * State :=
  if failing p OpSignOut then (Rejected SignOutFailed, p)
  else (Resolved tt, with_session None p).

(** Modelled from the spec: the auth context (contexts/AuthContext, not
    among the sources) as the spec describes the session provider. *)
#[global] Instance context : AuthContext State := {|
  Auth.currentUser := currentUser;
  Auth.signIn := signIn;
  Auth.googleSignIn := googleSignIn;
  Auth.signUp := signUp;
  Auth.resetPassword := resetPassword;
  Auth.updateUserProfile := updateUserProfile;
  Auth.logout := logout
|}.


(** Modelled from the spec: the two resolved session states of the
    provider behind contexts/AuthContext (not among the sources):
    authenticated when there is a current identity, anonymous otherwise. *)
Definition authenticated (p : State) : bool :=
  match currentUser p with Some _ => true | None => false end.


End Provider.

(* ===================================================================== *)
(** ** What an observer of a screen can tell *)
(* ===================================================================== *)

Module Observe.

Import Auth Firebase Runtime.

(** A submission that stopped at the validator: apart from
    [formState.errors], nothing moved, and no remote call was issued. *)
Definition stopped_at_validator {A} (s s' : Sys A) : Prop :=
  ui s' = ui s /\ location s' = location s /\ auth s' = auth s
  /\ services s' = services s /\ calls s' = calls s.

(** Some remote call in the log was rejected. *)
Definition some_rejected (l : list (Call * bool)) : Prop :=
  exists c, (c, false) ∈ l.

(** A selection turned down on the spot with [msg]: nothing was sent, and
    only the error cell changed. *)
Definition rejected_locally {A} (msg : string) (s s' : Sys A) : Prop :=
  error (ui s') = msg
  /\ issued s s' = []
  /\ services s' = services s
  /\ auth s' = auth s
  /\ profileImage (ui s') = profileImage (ui s)
  /\ isLoading (ui s') = isLoading (ui s).

(** After a run from [s], the handler settled normally and, if some remote
    call it issued was rejected, the loading flag is cleared and [msg] is
    the error shown. *)
Definition returns_to_idle {A} (msg : string) (s : Sys A)
    (run : Outcome unit * Sys A) : Prop :=
  fst run = Resolved tt
  /\ (some_rejected (issued s (snd run)) ->
      isLoading (ui (snd run)) = false /\ error (ui (snd run)) = msg).

End Observe.

(* ===================================================================== *)
(** ** A small concrete system, for running the screens *)
(* ===================================================================== *)

Module Sample.

Import Auth Firebase Runtime.

Definition alice : User :=
  {| uid := js "alice@example.com"; email := Some (js "alice@example.com");
     displayName := Some (js "Alice"); photoURL := None |}.

(** A provider with one account and nobody signed in. *)
Definition provider : Provider.State :=
  {| Provider.accounts :=
       {[ js "alice@example.com" :=
            {| Provider.password := Some (js "hunter22");
               Provider.identity := alice |} ]};
     Provider.session := None;
     Provider.outbox := [];
     Provider.pendingResets := [];
     Provider.external := None;
     Provider.policy := fun pw => (6 <=? length pw)%nat;
     Provider.failing := fun _ => false |}.

(** The same provider with alice signed in. *)
Definition signedIn : Provider.State :=
  Provider.with_session (Some (js "alice@example.com")) provider.

(** The same provider when identity updates are refused. *)
Definition updatesDown : Provider.State :=
  {| Provider.accounts := Provider.accounts provider;
     Provider.session := None;
     Provider.outbox := [];
     Provider.pendingResets := [];
     Provider.external := None;
     Provider.policy := Provider.policy provider;
     Provider.failing :=
       fun op => match op with Provider.OpUpdateProfile => true | _ => false end |}.

Definition hosted : Services :=
  {| users := ∅; bucket := ∅;
     downloadURL := fun p => js "https://files.example/" ++ p;
     outage := fun _ => false |}.

(** The hosted services when the document store cannot be read. *)
Definition unreadable : Services :=
  {| users := ∅; bucket := ∅;
     downloadURL := downloadURL hosted;
     outage := fun op => match op with GetDoc => true | _ => false end |}.

Definition system (u : UIState) (path : string) (p : Provider.State)
    (b : Services) : Sys Provider.State :=
  {| ui := u; formErrors := ∅; location := path; auth := p; services := b;
     clock := 1700000000000; calls := [] |}.

Definition atLogin : Sys Provider.State :=
  system Login.initial "/login" provider hosted.

Definition atSignUp : Sys Provider.State :=
  system SignUp.initial "/signup" updatesDown hosted.

Definition atForgotPassword : Sys Provider.State :=
  system ForgotPassword.initial "/forgot-password" provider hosted.

Definition atProfile : Sys Provider.State :=
  system (Profile.initial (Some alice)) "/profile" signedIn hosted.

Definition atProfileOffline : Sys Provider.State :=
  system (Profile.initial (Some alice)) "/profile" signedIn unreadable.

Definition bob : SignUp.SignUpFormData :=
  {| SignUp.username := js "bob"; SignUp.email := js "bob@example.com";
     SignUp.password := js "secret1"; SignUp.confirmPassword := js "secret1";
     SignUp.age := js "30" |}.

(** bob with a confirmation that differs, and with a non-numeric age. *)
Definition bobMistyped : SignUp.SignUpFormData :=
  {| SignUp.username := js "bob"; SignUp.email := js "bob@example.com";
     SignUp.password := js "secret1"; SignUp.confirmPassword := js "secret2";
     SignUp.age := js "30" |}.

Definition bobNoAge : SignUp.SignUpFormData :=
  {| SignUp.username := js "bob"; SignUp.email := js "bob@example.com";
     SignUp.password := js "secret1"; SignUp.confirmPassword := js "secret1";
     SignUp.age := js "abc" |}.

Definition aliceProfile : ProfileFormData :=
  {| username := js "Alice"; dob := js "2000-02-29";
     mobileNumber := js "+1 (123) 456-7890"; address := js "1 Main Street" |}.

Definition png2MB : File :=
  {| name := js "me.png"; type := js "image/png"; size := 2 * 1000 * 1000 |}.

Definition png6MB : File :=
  {| name := js "me.png"; type := js "image/png"; size := 6 * 1000 * 1000 |}.

Definition pdf : File :=
  {| name := js "cv.pdf"; type := js "application/pdf"; size := 1000 |}.

End Sample.

(* ===================================================================== *)
(** ** Shapes: what a value or a run looks like, for stating properties *)
(* ===================================================================== *)

Module Shape.

Import JS Auth Firebase Runtime Zod.

(** What the mobile-number pattern accepts: an optional plus sign, then one
    or more digits, blanks, dashes or parentheses. *)
Definition mobile_shape (s : jsstring) : Prop :=
  exists body,
    (s = body \/ s = 43%N :: body)
    /\ body <> []
    /\ Forall (fun c => Profile.mobileChar c = true) body.

(** Every code unit of [s] is a blank. *)
Definition blank (s : jsstring) : Prop :=
  Forall (fun c => isStrWhiteSpaceChar c = true) s.

(** A Number that is not below zero: plus infinity, or a finite value with
    a mantissa that is not negative. *)
Definition not_negative (x : Num.Number) : Prop :=
  match x with
  | Num.NaN => False
  | Num.Infinity negative => negative = false
  | Num.Finite m _ => 0 <= m
  end.

(** All five rules of the sign-up schema at once. *)
Definition signUp_ok (v : SignUp.SignUpFormData) : bool :=
  (3 <=? length (SignUp.username v))%nat
  && emailRegex_test (SignUp.email v)
  && (6 <=? length (SignUp.password v))%nat
  && strict_eq (SignUp.password v) (SignUp.confirmPassword v)
  && SignUp.age_check (SignUp.age v).

(** All the rules of the profile schema at once. *)
Definition profile_ok (v : ProfileFormData) : bool :=
  (3 <=? length (username v))%nat
  && truthy (dob v)
  && (10 <=? length (mobileNumber v))%nat
  && Pattern.test Profile.mobileRegex (mobileNumber v)
  && (5 <=? length (address v))%nat.

(** What the fetch shows for a field: the stored string when there is one
    and it is not empty, else the fallback. *)
Definition shown (stored : option FieldValue) (fallback : jsstring)
    : jsstring :=
  match stored with
  | Some (VString (c :: x)) => c :: x
  | Some (VString []) | Some VNull | None => fallback
  end.

(** The folder of the bucket the photos of [cu] go to. *)
Definition photoFolder (cu : option User) : jsstring :=
  js "profileImages/"
  ++ match cu with Some u => uid u | None => js "undefined" end
  ++ js "/".

(** A call the Profile screen may make on behalf of [cu]: a read or a write
    of the document with the id of [cu], a storage call under the folder of
    [cu], an identity update, or a sign-out. *)
Definition on_behalf_of (cu : option User) (c : Call) : Prop :=
  match c with
  | CallGetDoc id | CallSetDoc id _ => exists u, cu = Some u /\ id = uid u
  | CallUploadBytes p _ | CallGetDownloadURL p =>
      startsWith (photoFolder cu) p = true
  | CallUpdateUserProfile _ _ | CallLogout => True
  | CallSignIn _ _ | CallGoogleSignIn | CallSignUp _ _
  | CallResetPassword _ => False
  end.

(** A run from [s] to [s'] that kept to the record of the user signed in at
    [s]: every call it issued was on that user's behalf, and the documents
    of all other ids are as they were. *)
Definition keeps_to_own_record {A} `{AC : AuthContext A} (s s' : Sys A)
    : Prop :=
  Forall (fun x => on_behalf_of (currentUser (auth s)) (fst x)) (issued s s')
  /\ forall id, (forall u, currentUser (auth s) = Some u -> id <> uid u) ->
                users (services s') !! id = users (services s) !! id.

(** The same system at the instant [t]: time has passed, nothing else has
    changed. *)
Definition at_time {A} (t : Z) (s : Sys A) : Sys A :=
  {| ui := ui s; formErrors := formErrors s; location := location s;
     auth := auth s; services := services s; clock := t;
     calls := calls s |}.

End Shape.

(* ===================================================================== *)
(** ** More concrete systems *)
(* ===================================================================== *)

Module Scenario.

Import JS Auth Firebase Runtime.

(** An auth context with nobody signed in, whose operations all resolve. *)
Definition detached : AuthContext unit :=
  {| Auth.currentUser := fun _ => None;
     Auth.signIn := fun _ _ a => (Resolved tt, a);
     Auth.googleSignIn := fun a => (Resolved tt, a);
     Auth.signUp := fun _ _ a => (Resolved tt, a);
     Auth.resetPassword := fun _ a => (Resolved tt, a);
     Auth.updateUserProfile := fun _ _ a => (Resolved tt, a);
     Auth.logout := fun a => (Resolved tt, a) |}.

Definition atProfileDetached : Sys unit :=
  {| ui := Profile.initial None; formErrors := ∅; location := "/profile";
     auth := tt; services := Sample.hosted; clock := 1700000000000;
     calls := [] |}.

(** A stored record with a username, a null date of birth, an empty
    address, and no mobile number and no photo. *)
Definition partialRecord : gmap string FieldValue :=
  <["username" := VString (js "Ally")]>
  (<["dob" := VNull]> (<["address" := VString []]> ∅)).

Definition hostedWithRecord : Services :=
  {| users := {[ uid Sample.alice := partialRecord ]}; bucket := ∅;
     downloadURL := downloadURL Sample.hosted;
     outage := fun _ => false |}.

Definition atProfileWithRecord : Sys Provider.State :=
  Sample.system (Profile.initial (Some Sample.alice)) "/profile"
    Sample.signedIn hostedWithRecord.


(** A second edit of alice's profile. *)
Definition aliceMoved : ProfileFormData :=
  {| username := js "Alice"; dob := js "2000-02-29";
     mobileNumber := js "+1 (123) 456-7890"; address := js "2 Side Street" |}.

End Scenario.

(* ===================================================================== *)
(** * Lemmas *)
(* ===================================================================== *)

(** ** Patterns: what [test] accepts is in the language of the pattern *)

Section PatternFacts.

Import Pattern.

Lemma nullable_Matches r : nullable r = true -> Matches r [].
Proof.
  induction r; simpl; intros Hn; try discriminate.
  - constructor.
  - apply andb_true_iff in Hn as [H1 H2].
    change (@nil N) with (@nil N ++ []). constructor; auto.
  - apply orb_true_iff in Hn as [H1 | H2].
    + apply MAltL; auto.
    + apply MAltR; auto.
  - constructor.
Qed.

Lemma Matches_Void s : ~ Matches Void s.
Proof. intros H; inversion H. Qed.

Lemma seq_Matches r1 r2 s : Matches (seq r1 r2) s -> Matches (Seq r1 r2) s.
Proof.
  unfold seq.
  destruct r1; try (intros H; exact H);
    try (intros H; exfalso; revert H; apply Matches_Void).
  - destruct r2; intros H;
      try (exfalso; revert H; apply Matches_Void);
      change s with ([] ++ s); (apply MSeq; [apply MEps | exact H]).
  - destruct r2; intros H; try exact H; exfalso; revert H; apply Matches_Void.
  - destruct r2; intros H; try exact H; exfalso; revert H; apply Matches_Void.
  - destruct r2; intros H; try exact H; exfalso; revert H; apply Matches_Void.
  - destruct r2; intros H; try exact H; exfalso; revert H; apply Matches_Void.
Qed.

Lemma alt_Matches r1 r2 s : Matches (alt r1 r2) s -> Matches (Alt r1 r2) s.
Proof.
  unfold alt.
  destruct r1; try (intros H; apply MAltR; exact H);
    destruct r2; intros H; try exact H; apply MAltL; exact H.
Qed.

Lemma deriv_Matches c r : forall s, Matches (deriv c r) s -> Matches r (c :: s).
Proof.
  induction r; simpl; intros s H.
  - inversion H.
  - inversion H.
  - destruct (p c) eqn:Hp; inversion H; subst. constructor; exact Hp.
  - destruct (nullable r1) eqn:Hn.
    + apply alt_Matches in H. inversion H; subst.
      * apply seq_Matches in H3. inversion H3; subst.
        change (c :: s1 ++ s2) with ((c :: s1) ++ s2). constructor; auto.
      * change (c :: s) with ([] ++ c :: s).
        constructor; auto using nullable_Matches.
    + apply seq_Matches in H. inversion H; subst.
      change (c :: s1 ++ s2) with ((c :: s1) ++ s2). constructor; auto.
  - apply alt_Matches in H. inversion H; subst.
    + apply MAltL; auto.
    + apply MAltR; auto.
  - apply seq_Matches in H. inversion H; subst.
    change (c :: s1 ++ s2) with ((c :: s1) ++ s2). constructor; auto.
Qed.

Lemma test_Matches s : forall r, test r s = true -> Matches r s.
Proof.
  induction s as [|c s IH]; simpl; intros r H.
  - apply nullable_Matches; exact H.
  - apply deriv_Matches, IH, H.
Qed.

(** ... and conversely: [test] accepts every string of the language. *)

Lemma Matches_nullable r s : Matches r s -> s = [] -> nullable r = true.
Proof.
  induction 1; intros E; simpl; try done.
  - apply app_eq_nil in E as [-> ->]. by rewrite IHMatches1, IHMatches2.
  - by rewrite IHMatches.
  - rewrite IHMatches by done. apply orb_true_r.
Qed.

Lemma Matches_seq r1 r2 s : Matches (Seq r1 r2) s -> Matches (seq r1 r2) s.
Proof.
  intros H. inversion H as [| |? ? s1 s2 H1 H2| | | |]; subst.
  unfold seq.
  destruct r1; try (by inversion H1);
    destruct r2; try (by inversion H2); try exact H;
    inversion H1; subst; exact H2.
Qed.

Lemma Matches_alt r1 r2 s : Matches (Alt r1 r2) s -> Matches (alt r1 r2) s.
Proof.
  intros H. unfold alt.
  inversion H as [| | |? ? ? H1|? ? ? H2| |]; subst.
  - destruct r1; try (by inversion H1);
      destruct r2; try exact H1; exact H.
  - destruct r1; try exact H2;
      destruct r2; try (by inversion H2); exact H.
Qed.

Lemma Matches_deriv r s0 :
  Matches r s0 -> forall c s, s0 = c :: s -> Matches (deriv c r) s.
Proof.
  induction 1 as [|p c' Hp|r1 r2 s1 s2 H1 IH1 H2 IH2|r1 r2 s0 H1 IH1
                  |r1 r2 s0 H2 IH2|r|r s1 s2 H1 IH1 H2 IH2];
    intros c s E; simpl.
  - discriminate.
  - injection E as -> <-. rewrite Hp. constructor.
  - destruct s1 as [|c1 s1'].
    + simpl in E. subst s2.
      rewrite (Matches_nullable r1 [] H1 eq_refl).
      apply Matches_alt, MAltR. by apply IH2.
    + injection E as -> <-.
      assert (Matches (seq (deriv c r1) r2) (s1' ++ s2)) as Hseq.
      { apply Matches_seq. constructor; [by apply IH1 | exact H2]. }
      destruct (nullable r1); [apply Matches_alt, MAltL|]; exact Hseq.
  - apply Matches_alt, MAltL. by apply IH1.
  - apply Matches_alt, MAltR. by apply IH2.
  - discriminate.
  - destruct s1 as [|c1 s1'].
    + simpl in E. by apply IH2.
    + injection E as -> <-.
      apply Matches_seq. constructor; [by apply IH1 | exact H2].
Qed.

Lemma Matches_test s : forall r, Matches r s -> test r s = true.
Proof.
  induction s as [|c s IH]; simpl; intros r H.
  - by apply (Matches_nullable r []).
  - apply IH. by apply (Matches_deriv r (c :: s)).
Qed.

(** [test] decides the language of the pattern. *)
Lemma test_spec r s : test r s = true <-> Matches r s.
Proof. split; [apply test_Matches | apply Matches_test]. Qed.

End PatternFacts.

(** ** The email pattern needs an at sign *)

Section EmailFacts.

Import Pattern Zod.

Lemma Matches_Chr c s : Matches (Chr c) s -> s = [c].
Proof.
  unfold Chr. intros H. inversion H as [|p c' Hc| | | | |]; subst.
  apply N.eqb_eq in Hc. by subst.
Qed.

Lemma emailBody_has_at s : Matches emailBody s -> 64%N ∈ s.
Proof.
  unfold emailBody. intros H.
  inversion H as [| |r1 r2 s1 t1 _ H1| | | |]; subst.
  inversion H1 as [| |r1 r2 s2 t2 _ H2| | | |]; subst.
  inversion H2 as [| |r1 r2 s3 t3 Hat _| | | |]; subst.
  apply Matches_Chr in Hat. subst.
  rewrite !elem_of_app. right. right. left. apply list_elem_of_here.
Qed.

Lemma emailRegex_needs_at s : 64%N ∉ s -> emailRegex_test s = false.
Proof.
  intros Hno. unfold emailRegex_test.
  destruct (test emailBody s) eqn:Ht.
  - exfalso. apply Hno, emailBody_has_at, test_Matches, Ht.
  - apply andb_false_r.
Qed.

(** The resolver keeps, for each field path, the message of the first issue
    on that path. *)
Lemma parseErrorSchema_fold issues : forall (acc : gmap string string) k,
  fold_left
    (fun errors i =>
       let k := join_path (path i) in
       match errors !! k with
       | Some _ => errors
       | None => <[k := Zod.message i]> errors
       end) issues acc !! k
  = match acc !! k with
    | Some m => Some m
    | None => Zod.message <$>
                find (fun i => bool_decide (join_path (path i) = k)) issues
    end.
Proof.
  induction issues as [|i issues IH]; intros acc k; simpl.
  - by destruct (acc !! k).
  - destruct (acc !! join_path (path i)) eqn:Hi; rewrite IH.
    + destruct (acc !! k) eqn:Hk; [done|].
      case_bool_decide; [congruence | done].
    + destruct (decide (join_path (path i) = k)) as [<-|Hne].
      * rewrite lookup_insert_eq, Hi.
        by rewrite bool_decide_eq_true_2.
      * rewrite lookup_insert_ne by done.
        by rewrite bool_decide_eq_false_2.
Qed.

Lemma parseErrorSchema_lookup issues k :
  parseErrorSchema issues !! k
  = Zod.message <$> find (fun i => bool_decide (join_path (path i) = k)) issues.
Proof. unfold parseErrorSchema. by rewrite parseErrorSchema_fold, lookup_empty. Qed.

End EmailFacts.

(** ** The login form's validation *)

Section LoginFacts.

Import JS Zod.


End LoginFacts.

(** ** Numbers: comparison, rounding of integers, decimal numerals *)

Section NumberFacts.

Import JS Num.

Lemma value_scale m e e0 :
  e0 <= e -> (value m e == inject_Z (m * 2 ^ (e - e0)) * 2 ^ e0)%Q.
Proof.
  intros Hle. unfold value.
  rewrite inject_Z_mult, Zpower_Qpower by lia.
  rewrite <- Qmult_assoc, <- Qpower_plus by discriminate.
  replace (e - e0 + e0) with e by lia. reflexivity.
Qed.

Lemma fin_leb_spec m1 e1 m2 e2 :
  fin_leb m1 e1 m2 e2 = true <-> (value m1 e1 <= value m2 e2)%Q.
Proof.
  unfold fin_leb.
  rewrite (value_scale m1 e1 (Z.min e1 e2)), (value_scale m2 e2 (Z.min e1 e2))
    by lia.
  rewrite Qmult_le_r by (apply Qpower_0_lt; reflexivity).
  rewrite <- Zle_Qle. apply Z.leb_le.
Qed.

Lemma value_lit n : (value n 0 == inject_Z n)%Q.
Proof. unfold value. simpl. apply Qmult_1_r. Qed.

Lemma ge_lit_spec x n :
  negb (isNaN x) && ge x (lit n) = true <-> number_at_least n x.
Proof.
  destruct x as [|[]|m e]; simpl.
  - split; [discriminate | tauto].
  - split; discriminate.
  - split; reflexivity.
  - unfold lit. rewrite fin_leb_spec, value_lit. reflexivity.
Qed.


Lemma round_half_even_1 n : round_half_even n 1 = n.
Proof.
  unfold round_half_even. rewrite Z.div_1_r, Z.mod_1_r. reflexivity.
Qed.

Lemma round_half_even_lower n d : n / d <= round_half_even n d.
Proof.
  unfold round_half_even.
  destruct (2 * (n mod d) ?= d); [destruct (Z.even (n / d))| |]; lia.
Qed.

Lemma floor_log2_ratio_int n : 0 < n -> floor_log2_ratio n 1 = Z.log2 n.
Proof.
  intros Hn. unfold floor_log2_ratio. change (Z.log2 1) with 0.
  rewrite Z.sub_0_r.
  pose proof (Z.log2_nonneg n) as H0.
  destruct (Z.leb_spec 0 (Z.log2 n)) as [_|]; [|lia].
  pose proof (Z.log2_spec n Hn) as [Hlo _].
  destruct (Z.leb_spec (1 * 2 ^ Z.log2 n) n); lia.
Qed.

(** Rounding a positive integer: exact below 2^53, at least 2^53 above. *)
Lemma round64_pos_int n :
  0 < n ->
  (round64_pos n 1 = Infinity false /\ 2 ^ 1023 <= n)
  \/ exists m sh, round64_pos n 1 = Finite m sh
       /\ ((sh <= 0 /\ m = n * 2 ^ (- sh))
           \/ (0 < sh /\ 2 ^ 52 <= m /\ 2 ^ 53 <= n)).
Proof.
  intros Hn. unfold round64_pos.
  rewrite (floor_log2_ratio_int n Hn).
  pose proof (Z.log2_nonneg n) as H0.
  pose proof (Z.log2_spec n Hn) as [Hlo _].
  rewrite Z.max_l by lia.
  set (e := Z.log2 n) in *.
  match goal with |- ((if ?c then _ else _) = _ /\ _) \/ _ =>
    destruct c eqn:Hc end.
  - left. split; [done|].
    assert (1023 <= e) as He.
    { apply orb_true_iff in Hc as [Hc|Hc]; [lia|].
      apply andb_true_iff in Hc as [Hc _]. lia. }
    etransitivity; [|exact Hlo]. apply Z.pow_le_mono_r; lia.
  - right. destruct (Z.leb_spec 0 (e - 52)) as [Hsh|Hsh].
    + eexists _, _. split; [reflexivity|].
      destruct (Z.eq_dec (e - 52) 0) as [E0|Hpos].
      * left. split; [lia|]. rewrite E0. simpl.
        rewrite round_half_even_1. lia.
      * right. split; [lia|]. split.
        -- etransitivity; [|apply round_half_even_lower].
           rewrite Z.mul_1_l.
           apply Z.div_le_lower_bound; [apply Z.pow_pos_nonneg; lia|].
           rewrite Z.mul_comm, <- Z.pow_add_r by lia.
           replace (52 + (e - 52)) with e by lia. exact Hlo.
        -- etransitivity; [|exact Hlo]. apply Z.pow_le_mono_r; lia.
    + eexists _, _. split; [reflexivity|]. left. split; [lia|].
      apply round_half_even_1.
Qed.

(** A positive integer, once rounded, compares with 18 as the integer
    does, and its opposite stays below. *)
Lemma ge_round64_pos_int n :
  0 < n ->
  isNaN (round64_pos n 1) = false
  /\ ge (round64_pos n 1) (lit 18) = (18 <=? n)
  /\ isNaN (negate (round64_pos n 1)) = false
  /\ ge (negate (round64_pos n 1)) (lit 18) = false.
Proof.
  intros Hpos.
  destruct (round64_pos_int n Hpos) as [[-> Hbig]|(m & sh & -> & Hm)].
  - repeat split. cbn [ge lit]. symmetry. apply Z.leb_le.
    etransitivity; [|exact Hbig]. by apply Z.leb_le.
  - cbn [ge lit negate isNaN]. unfold fin_leb.
    destruct Hm as [[Hsh ->]|(Hsh & Hm & Hn)].
    + rewrite Z.min_r by lia.
      replace (sh - sh) with 0 by lia. replace (0 - sh) with (- sh) by lia.
      rewrite Z.pow_0_r, !Z.mul_1_r.
      assert (0 < 2 ^ (- sh)) by (apply Z.pow_pos_nonneg; lia).
      repeat split.
      * destruct (Z.leb_spec 18 n),
          (Z.leb_spec (18 * 2 ^ (- sh)) (n * 2 ^ (- sh)));
          try reflexivity; nia.
      * apply Z.leb_gt. nia.
    + rewrite Z.min_l by lia.
      replace (0 - 0) with 0 by lia. replace (sh - 0) with sh by lia.
      rewrite Z.pow_0_r.
      assert (2 <= 2 ^ sh).
      { change 2 with (2 ^ 1) at 1. apply Z.pow_le_mono_r; lia. }
      assert (2 ^ 52 = 4503599627370496) as E52 by reflexivity.
      assert (2 ^ 53 = 9007199254740992) as E53 by reflexivity.
      repeat split.
      * destruct (Z.leb_spec 18 n), (Z.leb_spec (18 * 1) (m * 2 ^ sh));
          try reflexivity; nia.
      * apply Z.leb_gt. nia.
Qed.

(** [Number] of an integer compares with 18 as the integer does. *)
Lemma ge_round64_int n :
  negb (isNaN (round64 n 1)) && ge (round64 n 1) (lit 18) = (18 <=? n).
Proof.
  unfold round64.
  destruct (Z.eqb_spec n 0) as [->|Hn0]; [reflexivity|].
  destruct (Z.ltb_spec 0 n) as [Hpos|Hneg].
  - destruct (ge_round64_pos_int n Hpos) as (-> & -> & _). reflexivity.
  - destruct (ge_round64_pos_int (- n)) as (_ & _ & -> & ->); [lia|].
    symmetry. apply Z.leb_gt. lia.
Qed.


Lemma digit_not_blank c : isDigit c = true -> isStrWhiteSpaceChar c = false.
Proof.
  unfold isDigit, isStrWhiteSpaceChar, isWhiteSpace, isLineTerminator.
  intros H. apply andb_true_iff in H as [H1 H2].
  apply N.leb_le in H1, H2.
  repeat (apply orb_false_iff; split);
    try (apply N.eqb_neq; lia);
    apply andb_false_iff; left; apply N.leb_gt; lia.
Qed.

Lemma trim_id s :
  (forall c r, s = c :: r -> isStrWhiteSpaceChar c = false) ->
  (forall c r, rev s = c :: r -> isStrWhiteSpaceChar c = false) ->
  trim s = s.
Proof.
  intros Hhd Hlast. unfold trim.
  assert (trimStart s = s) as ->.
  { destruct s as [|c r]; [done|]. simpl. by rewrite (Hhd c r). }
  assert (trimStart (rev s) = rev s) as ->.
  { destruct (rev s) as [|c r] eqn:E; [done|]. simpl. by rewrite (Hlast c r). }
  apply rev_involutive.
Qed.

Lemma span_digits_all ds :
  Forall (fun c => isDigit c = true) ds -> span_digits ds = (ds, []).
Proof.
  induction 1 as [|c ds Hc _ IH]; simpl; [done|]. by rewrite Hc, IH.
Qed.

Lemma nonDecimalLiteral_digits s :
  (forall z p r, s = z :: p :: r -> isDigit p = true \/ z <> 48%N) ->
  nonDecimalLiteral s = None.
Proof.
  intros Hs. unfold nonDecimalLiteral.
  destruct s as [|z [|p [|x r]]]; try done.
  destruct (N.eqb_spec z 48) as [->|]; [|done].
  destruct (Hs _ _ _ eq_refl) as [Hp|]; [|done].
  unfold isDigit in Hp. apply andb_true_iff in Hp as [H1 H2].
  apply N.leb_le in H1, H2.
  repeat match goal with
  | |- context [N.eqb p ?k] => destruct (N.eqb_spec p k); [lia|]
  end.
  reflexivity.
Qed.

Lemma unsignedDecimalLiteral_digits ds :
  ds <> [] -> Forall (fun c => isDigit c = true) ds ->
  unsignedDecimalLiteral ds = Some (round64 (digits_value ds) 1).
Proof.
  intros Hne Hds. unfold unsignedDecimalLiteral, strict_eq.
  rewrite bool_decide_eq_false_2.
  2:{ intros ->. by apply Forall_cons in Hds as [Hd _]. }
  rewrite (span_digits_all ds Hds). cbn [fractionPart].
  rewrite app_nil_r. destruct ds as [|c r]; [done|].
  cbn [exponentPart length]. unfold of_decimal.
  replace (0 - Z.of_nat 0) with 0 by reflexivity.
  cbn [Z.leb Z.compare]. by rewrite Z.pow_0_r, Z.mul_1_r.
Qed.


Lemma Forall_digit_rev_head ds c r :
  Forall (fun c => isDigit c = true) ds -> rev ds = c :: r ->
  isStrWhiteSpaceChar c = false.
Proof.
  intros Hds E. apply digit_not_blank.
  apply (proj1 (List.Forall_forall _ _) Hds), in_rev.
  rewrite E. by left.
Qed.

Lemma StringToNumber_digits ds :
  ds <> [] -> Forall (fun c => isDigit c = true) ds ->
  StringToNumber ds = round64 (digits_value ds) 1.
Proof.
  intros Hne Hds. destruct ds as [|c r]; [done|].
  inversion Hds as [|? ? Hc Hr]; subst.
  unfold StringToNumber. rewrite trim_id.
  - rewrite nonDecimalLiteral_digits.
    + unfold decimalLiteral, signed.
      assert (Hc' := Hc). unfold isDigit in Hc'.
      apply andb_true_iff in Hc' as [H1 H2]. apply N.leb_le in H1, H2.
      destruct (N.eqb_spec c 45); [lia|]. destruct (N.eqb_spec c 43); [lia|].
      by rewrite unsignedDecimalLiteral_digits.
    + intros z p r' [= <- ->]. left. by inversion Hr.
  - intros c' r' [= <- _]. by apply digit_not_blank.
  - intros c' r'. by apply Forall_digit_rev_head.
Qed.

Lemma StringToNumber_minus_digits ds :
  ds <> [] -> Forall (fun c => isDigit c = true) ds ->
  StringToNumber (45%N :: ds) = negate (round64 (digits_value ds) 1).
Proof.
  intros Hne Hds. unfold StringToNumber.
  rewrite trim_id.
  - rewrite nonDecimalLiteral_digits by (intros z p r [= <- _]; by right).
    unfold decimalLiteral, signed. cbn [N.eqb Pos.eqb].
    by rewrite unsignedDecimalLiteral_digits.
  - by intros c r [= <- _].
  - intros c r E. simpl in E.
    destruct (rev ds) as [|c' r'] eqn:Er.
    + apply (f_equal (@rev N)) in Er. rewrite rev_involutive in Er. done.
    + simpl in E. injection E as <- _.
      by apply (Forall_digit_rev_head ds c' r').
Qed.

(** The decimal numerals of the standard library, read back by
    [digits_value]. *)
Lemma uint_digits d :
  Forall (fun c => isDigit c = true) (js (NilEmpty.string_of_uint d)).
Proof. induction d; simpl; constructor; done. Qed.

Lemma uint_nonempty d : d <> Nil -> js (NilEmpty.string_of_uint d) <> [].
Proof. by destruct d. Qed.

Lemma uint_value d : forall d',
  fold_left (fun acc c => 10 * acc + digit_value c)
            (js (NilEmpty.string_of_uint d)) (Z.of_N (DecimalPos.Unsigned.of_lu d'))
  = Z.of_N (DecimalPos.Unsigned.of_lu (revapp d d')).
Proof.
  induction d; intros d'; cbn [NilEmpty.string_of_uint js list_ascii_of_string
    map fold_left revapp]; [done|..];
    (rewrite <- IHd; f_equal; simpl DecimalPos.Unsigned.of_lu; unfold digit_value;
     simpl N_of_ascii; lia).
Qed.

Lemma digits_value_uint d :
  digits_value (js (NilEmpty.string_of_uint d)) = Z.of_uint d.
Proof.
  unfold digits_value, Z.of_uint.
  rewrite DecimalPos.Unsigned.of_uint_alt. apply (uint_value d Nil).
Qed.

Lemma StringToNumber_of_int n :
  StringToNumber (of_int n) = round64 n 1.
Proof.
  unfold of_int. destruct n as [|p|p]; cbn [Z.to_int NilZero.string_of_int].
  - reflexivity.
  - unfold NilZero.string_of_uint.
    pose proof (DecimalPos.Unsigned.to_uint_nonnil p) as Hnn.
    destruct (Pos.to_uint p) eqn:E; [done|..]; rewrite <- E;
      (rewrite StringToNumber_digits;
       [ rewrite digits_value_uint; unfold Z.of_uint;
         by rewrite DecimalPos.Unsigned.of_to
       | apply uint_nonempty; by rewrite E
       | apply uint_digits ]).
  - unfold NilZero.string_of_uint.
    pose proof (DecimalPos.Unsigned.to_uint_nonnil p) as Hnn.
    destruct (Pos.to_uint p) eqn:E; [done|..]; rewrite <- E;
      (change (js (String "-" (NilEmpty.string_of_uint (Pos.to_uint p))))
         with (45%N :: js (NilEmpty.string_of_uint (Pos.to_uint p)));
       rewrite StringToNumber_minus_digits;
       [ rewrite digits_value_uint; unfold Z.of_uint;
         rewrite DecimalPos.Unsigned.of_to; reflexivity
       | apply uint_nonempty; by rewrite E
       | apply uint_digits ]).
Qed.

Lemma age_check_of_int n : SignUp.age_check (of_int n) = (18 <=? n).
Proof.
  unfold SignUp.age_check. rewrite StringToNumber_of_int.
  apply ge_round64_int.
Qed.

End NumberFacts.

(** ** Running a handler *)

(** Unfold a handler down to the remote calls it makes. *)
Ltac run :=
  cbv [Login.onSubmit Login.handleGoogleSignIn SignUp.onSubmit
       ForgotPassword.onSubmit Profile.onSubmit Profile.handleImageChange
       Profile.fetchUserData Profile.handleLogout Profile.setProfileImage_if
       Runtime.try_catch_finally Runtime.try_catch Runtime.rendered
       mbind mret Runtime.M_bind Runtime.M_ret
       Runtime.signIn Runtime.googleSignIn Runtime.signUp
       Runtime.resetPassword Runtime.updateUserProfile Runtime.logout
       Runtime.getDoc Runtime.setDoc_merge Runtime.uploadBytes
       Runtime.getDownloadURL Runtime.await_auth Runtime.await_sdk
       Runtime.now Runtime.navigate Runtime.reset
       Runtime.setError Runtime.setMessage Runtime.setIsLoading
       Runtime.setProfileImage Runtime.setFetchingUserData
       Runtime.setFormErrors Runtime.with_ui].

(** Reduce the projections of the states a run goes through. *)
Ltac project :=
  cbn [fst snd Runtime.ui Runtime.calls Runtime.auth Runtime.services
       Runtime.clock Runtime.location Runtime.formErrors
       Runtime.error Runtime.message Runtime.isLoading Runtime.profileImage
       Runtime.fetchingUserData Runtime.formValues
       Firebase.users Firebase.bucket Firebase.outage Firebase.downloadURL
       Firebase.with_users Firebase.with_bucket].

(** The calls logged by a run, once the final log is explicit. *)
Ltac issued_in H :=
  unfold Runtime.issued in H; cbn [Runtime.calls] in H;
  rewrite <- ?app_assoc in H; rewrite ?drop_app_length, ?drop_all in H.

Ltac issued_goal :=
  unfold Runtime.issued; cbn [Runtime.calls];
  rewrite <- ?app_assoc; rewrite ?drop_app_length, ?drop_all.

(** Close a [returns_to_idle] goal once every remote call has been decided:
    either some call was rejected and the cells are as claimed, or none was
    and the log says so. *)
Ltac settle :=
  project; split; [reflexivity|];
  let c := fresh "c" in
  let Hc := fresh "Hc" in
  intros [c Hc]; issued_in Hc;
  try (split; reflexivity);
  exfalso;
  repeat (apply elem_of_cons in Hc as [Hc|Hc]; [discriminate Hc|]);
  by apply elem_of_nil in Hc.

(** Settle a decidable closed proposition by evaluating its decision. *)
Ltac by_decide :=
  match goal with
  | |- ?P => apply (bool_decide_unpack P); vm_compute; exact I
  end.

Section ProfileFacts.

Import Firebase Runtime.

Lemma record_unwritten data img cu t k :
  k ∉ Profile.writtenFields -> Profile.record data img cu t !! k = None.
Proof.
  unfold Profile.writtenFields, Profile.record. intros Hk.
  repeat (rewrite lookup_insert_ne; [|intros <-; apply Hk; set_solver]).
  apply lookup_empty.
Qed.

(** The photo handler catches whatever the storage calls throw. *)
Lemma handleImageChange_settles {A} `{AC : Auth.AuthContext A}
    (f : option File) (s : Sys A) :
  fst (Profile.handleImageChange f s) = Auth.Resolved tt.
Proof.
  destruct f as [f|]; run; [|reflexivity].
  destruct (negb (JS.startsWith (JS.js "image/") (type f))); [reflexivity|].
  destruct (5 * 1024 * 1024 <? size f); [reflexivity|].
  unfold Firebase.uploadBytes, Firebase.getDownloadURL. project.
  destruct (outage (services s) UploadBytes); [reflexivity|]. project.
  destruct (outage (services s) GetDownloadURL); [reflexivity|].
  by destruct (_ !! _).
Qed.

End ProfileFacts.

(** ** The model on known values *)

Section KnownValues.

Import JS Num Pattern Zod.

Example number_of_tenth :
  StringToNumber (js "0.1") = Finite 7205759403792794 (-56).
Proof. vm_compute. reflexivity. Qed.

Example number_of_hex : StringToNumber (js "0x12") = StringToNumber (js "18").
Proof. vm_compute. reflexivity. Qed.

Example number_of_blank : StringToNumber (js "   ") = Finite 0 0.
Proof. vm_compute. reflexivity. Qed.

Example number_of_padded : StringToNumber (js " 1e2 ") = StringToNumber (js "100").
Proof. vm_compute. reflexivity. Qed.

Example number_of_trailing_text : StringToNumber (js "18abc") = NaN.
Proof. vm_compute. reflexivity. Qed.

Example number_largest :
  StringToNumber (js "1.7976931348623157e308") = Finite (2 ^ 53 - 1) 971.
Proof. vm_compute. reflexivity. Qed.

Example number_overflow : StringToNumber (js "1.7976931348623159e308") = Infinity false.
Proof. vm_compute. reflexivity. Qed.

Example number_smallest : StringToNumber (js "4.9e-324") = Finite 1 (-1074).
Proof. vm_compute. reflexivity. Qed.

(** Rounding is to nearest: just below 18 can read as 18. *)
Example number_rounds_to_18 :
  StringToNumber (js "17.99999999999999999999") = StringToNumber (js "18").
Proof. vm_compute. reflexivity. Qed.

Example email_plain : emailRegex_test (js "alice@example.com") = true.
Proof. vm_compute. reflexivity. Qed.

Example email_tagged :
  emailRegex_test (js "user.name+tag@example-domain.co.uk") = true.
Proof. vm_compute. reflexivity. Qed.

Example email_leading_dot : emailRegex_test (js ".alice@example.com") = false.
Proof. vm_compute. reflexivity. Qed.

Example email_double_dot : emailRegex_test (js "al..ice@example.com") = false.
Proof. vm_compute. reflexivity. Qed.

Example email_short_tld : emailRegex_test (js "alice@example.c") = false.
Proof. vm_compute. reflexivity. Qed.

Example email_two_ats : emailRegex_test (js "alice@@example.com") = false.
Proof. vm_compute. reflexivity. Qed.

Example mobile_formatted :
  test Profile.mobileRegex (js "+1 (123) 456-7890") = true.
Proof. vm_compute. reflexivity. Qed.

Example mobile_letters : test Profile.mobileRegex (js "call me") = false.
Proof. vm_compute. reflexivity. Qed.

Example iso_epoch : JSDate.toISOString 0 = js "1970-01-01T00:00:00.000Z".
Proof. vm_compute. reflexivity. Qed.

Example iso_leap_day :
  JSDate.toISOString 1709210096789 = js "2024-02-29T12:34:56.789Z".
Proof. vm_compute. reflexivity. Qed.

Example iso_before_epoch :
  JSDate.toISOString (-1) = js "1969-12-31T23:59:59.999Z".
Proof. vm_compute. reflexivity. Qed.

Example photo_key :
  Profile.photoPath (Some Sample.alice) 1700000000000 Sample.png2MB
  = js "profileImages/alice@example.com/1700000000000-me.png".
Proof. vm_compute. reflexivity. Qed.

(** A valid sign-up form parses to itself. *)
Example signUp_valid : SignUp.signUpSchema Sample.bob = Success Sample.bob.
Proof. vm_compute. reflexivity. Qed.

Example profile_valid :
  Profile.profileSchema Sample.aliceProfile = Success Sample.aliceProfile.
Proof. vm_compute. reflexivity. Qed.

End KnownValues.

(* ===================================================================== *)
(** * Theorems *)
(* ===================================================================== *)

Section ValidatorClaims.

Import Auth Runtime Zod Observe.

Context {A : Type} `{AC : AuthContext A}.

(** C5.  An email without an at sign is rejected by the validator of the
    sign-in, sign-up and forgot-password screens with the email-shape
    message on the email field, whatever the other fields hold, and the
    submission stops there: no remote call is issued, and neither the auth
    context, the hosted services, the location nor the cells of the screen
    change. *)
Theorem email_without_at_is_rejected (e : jsstring) (s : Sys A) :
  64%N ∉ e ->
  (forall pw, exists s',
      Login.submit {| Login.email := e; Login.password := pw |} s
        = (Resolved tt, s')
      /\ formErrors s' !! "email" = Some "Please enter a valid email address"
      /\ stopped_at_validator s s')
  /\ (forall u pw cpw ag, exists s',
      SignUp.submit {| SignUp.username := u; SignUp.email := e;
                       SignUp.password := pw; SignUp.confirmPassword := cpw;
                       SignUp.age := ag |} s
        = (Resolved tt, s')
      /\ formErrors s' !! "email" = Some "Please enter a valid email address"
      /\ stopped_at_validator s s')
  /\ (exists s',
      ForgotPassword.submit {| ForgotPassword.email := e |} s
        = (Resolved tt, s')
      /\ formErrors s' !! "email" = Some "Please enter a valid email address"
      /\ stopped_at_validator s s').
Proof.
  intros Hno. pose proof (emailRegex_needs_at e Hno) as He.
  split; [|split].
  - intros pw.
    unfold Login.submit, handleSubmit, Login.loginSchema, z_object, field,
      z_email, z_string.
    cbn [Login.email Login.password app map]. rewrite He.
    cbn [app map]. eexists. split; [reflexivity|]. split.
    + cbn [formErrors]. by rewrite parseErrorSchema_lookup.
    + by repeat split.
  - intros u pw cpw ag.
    unfold SignUp.submit, handleSubmit, SignUp.signUpSchema, z_object, field,
      z_email, z_min, z_string.
    cbn [SignUp.username SignUp.email SignUp.password SignUp.confirmPassword
         SignUp.age app map].
    rewrite He.
    destruct (length u <? 3)%nat; cbn [app map];
      (eexists; split; [reflexivity|]; split;
       [cbn [formErrors]; by rewrite parseErrorSchema_lookup
       | by repeat split]).
  - unfold ForgotPassword.submit, handleSubmit,
      ForgotPassword.forgotPasswordSchema, z_object, field, z_email, z_string.
    cbn [ForgotPassword.email app map]. rewrite He.
    cbn [app map]. eexists. split; [reflexivity|]. split.
    + cbn [formErrors]. by rewrite parseErrorSchema_lookup.
    + by repeat split.
Qed.

(** C4.  When the password and its confirmation differ, sign-up validation
    fails; the mismatch issue is among the issues, on the confirmPassword
    path and on no other; the form shows it on the confirmation field and
    not on the password field; and the submission stops at the validator. *)
Theorem password_mismatch_on_confirmation
    (v : SignUp.SignUpFormData) (s : Sys A) :
  SignUp.password v <> SignUp.confirmPassword v ->
  exists issues s',
    SignUp.signUpSchema v = Failure issues
    /\ {| path := ["confirmPassword"];
          Zod.message := "Passwords don't match" |} ∈ issues
    /\ (forall i, i ∈ issues -> Zod.message i = "Passwords don't match" ->
                  path i = ["confirmPassword"])
    /\ SignUp.submit v s = (Resolved tt, s')
    /\ formErrors s' !! "confirmPassword" = Some "Passwords don't match"
    /\ formErrors s' !! "password" <> Some "Passwords don't match"
    /\ stopped_at_validator s s'.
Proof.
  intros Hne.
  unfold SignUp.submit, handleSubmit, SignUp.signUpSchema, z_object, field,
    z_email, z_min, z_refine, z_string, strict_eq.
  rewrite (bool_decide_eq_false_2 _ Hne).
  destruct (length (SignUp.username v) <? 3)%nat;
    destruct (emailRegex_test (SignUp.email v));
    destruct (length (SignUp.password v) <? 6)%nat;
    destruct (SignUp.age_check (SignUp.age v));
    cbn [app map];
    (eexists _, _; split; [reflexivity|]; split; [set_solver|]; split;
     [ intros i Hi Hm;
       repeat (apply elem_of_cons in Hi as [->|Hi]);
       try discriminate Hm; try reflexivity; by apply elem_of_nil in Hi
     | split; [reflexivity|]; cbn [formErrors];
       rewrite !parseErrorSchema_lookup; by repeat split ]).
Qed.

(** C3.  The age field of sign-up is accepted exactly when its value, read
    as a Number, is a number that is at least 18: the check holds iff
    [Number(val)] is not NaN and is 18 or more; the schema reports the age
    message on the age path exactly when the check fails; a value that
    fails the check (non-numeric ones included) ends as that message on
    the age field of a settled submission, with nothing else touched; for
    every integer, its decimal numeral passes iff the integer is at least
    18; and "17", "abc" and "-5" fail while "18" and "99" pass. *)
Theorem age_accepted_iff_number_at_least_18 :
  (forall val,
      SignUp.age_check val = true
      <-> Num.number_at_least 18 (Num.StringToNumber val))
  /\ (forall v,
      violations (SignUp.signUpSchema v) ["age"]
      = if SignUp.age_check (SignUp.age v) then []
        else ["You must be at least 18 years old"])
  /\ (forall v (s : Sys A),
      SignUp.age_check (SignUp.age v) = false ->
      exists s',
        SignUp.submit v s = (Resolved tt, s')
        /\ formErrors s' !! "age" = Some "You must be at least 18 years old"
        /\ stopped_at_validator s s')
  /\ (forall n : Z, SignUp.age_check (of_int n) = true <-> 18 <= n)
  /\ Num.StringToNumber (js "abc") = Num.NaN
  /\ SignUp.age_check (js "17") = false
  /\ SignUp.age_check (js "abc") = false
  /\ SignUp.age_check (js "-5") = false
  /\ SignUp.age_check (js "18") = true
  /\ SignUp.age_check (js "99") = true.
Proof.
  split; [|split; [|split; [|split]]].
  - intros val. apply ge_lit_spec.
  - intros v.
    unfold SignUp.signUpSchema, z_object, field, z_email, z_min, z_refine,
      z_string.
    destruct (length (SignUp.username v) <? 3)%nat;
      destruct (emailRegex_test (SignUp.email v));
      destruct (length (SignUp.password v) <? 6)%nat;
      destruct (SignUp.age_check (SignUp.age v));
      destruct (strict_eq (SignUp.password v) (SignUp.confirmPassword v));
      reflexivity.
  - intros v s Hage.
    unfold SignUp.submit, handleSubmit, SignUp.signUpSchema, z_object, field,
      z_email, z_min, z_refine, z_string.
    rewrite Hage.
    destruct (length (SignUp.username v) <? 3)%nat;
      destruct (emailRegex_test (SignUp.email v));
      destruct (length (SignUp.password v) <? 6)%nat;
      destruct (strict_eq (SignUp.password v) (SignUp.confirmPassword v));
      cbn [app map];
      (eexists; split; [reflexivity|]; split;
       [cbn [formErrors]; by rewrite parseErrorSchema_lookup
       | by repeat split]).
  - intros n. rewrite age_check_of_int. apply Z.leb_le.
  - repeat split; vm_compute; reflexivity.
Qed.

End ValidatorClaims.

Section ScreenClaims.

Import Auth Firebase Runtime Zod Observe.

Context {A : Type} `{AC : AuthContext A}.

(** C7.  Whatever the auth context and the hosted services answer, each of
    the six operations (sign-in, Google sign-in, sign-up, reset-password,
    profile save, photo upload) settles normally: no rejection escapes the
    handler.  And whenever a remote call of the operation was rejected, the
    loading flag is cleared and the operation's failure message is the
    error on display. *)
Theorem every_failure_returns_to_idle (s : Sys A) :
  (forall d, returns_to_idle "Failed to sign in. Please check your credentials."
               s (Login.onSubmit d s))
  /\ returns_to_idle "Failed to sign in with Google." s
       (Login.handleGoogleSignIn s)
  /\ (forall d, returns_to_idle "Failed to create an account."
                  s (SignUp.onSubmit d s))
  /\ (forall d, returns_to_idle
                  "Failed to reset password. Please check your email address."
                  s (ForgotPassword.onSubmit d s))
  /\ (forall d, returns_to_idle "Failed to update profile."
                  s (Profile.onSubmit d s))
  /\ (forall f, returns_to_idle "Failed to upload image."
                  s (Profile.handleImageChange f s)).
Proof.
  split; [|split; [|split; [|split; [|split]]]]; unfold returns_to_idle.
  - intros d. run. project.
    destruct (Auth.signIn _ _ _) as [[[]|e] a]; settle.
  - run. project.
    destruct (Auth.googleSignIn _) as [[[]|e] a]; settle.
  - intros d. run. project.
    destruct (Auth.signUp _ _ _) as [[[]|e] a]; [|settle].
    project. destruct (Auth.updateUserProfile _ _ _) as [[[]|e] a']; settle.
  - intros d. run. project.
    destruct (Auth.resetPassword _ _) as [[[]|e] a]; settle.
  - intros d. run. project.
    destruct (Auth.updateUserProfile _ _ _) as [[[]|e] a]; [|settle].
    destruct (currentUser (auth s)) as [cu|]; [|settle].
    unfold Firebase.setDoc_merge. project.
    destruct (outage (services s) SetDoc); settle.
  - intros [f|]; run; [|settle].
    destruct (negb (startsWith (js "image/") (type f))); [settle|].
    destruct (5 * 1024 * 1024 <? size f); [settle|].
    unfold Firebase.uploadBytes, Firebase.getDownloadURL. project.
    destruct (outage (services s) UploadBytes); [settle|].
    project.
    destruct (outage (services s) GetDownloadURL); [settle|].
    destruct (_ !! _); settle.
Qed.

(** C2.  A selected file is checked before anything is sent.  If its
    content type does not start with "image/", or it is larger than 5 MiB,
    the handler only sets the matching error message: no remote call is
    issued, the services and the preview stay as they were.  If it passes
    both checks the upload is issued, under profileImages/<uid>/<now>-<name>;
    and when the upload and the URL lookup go through, the file is stored
    under that key and the returned URL is the preview. *)
Theorem photo_checked_before_upload (f : File) (s : Sys A) :
  let s' := snd (Profile.handleImageChange (Some f) s) in
  let fileRef := Profile.photoPath (currentUser (auth s)) (clock s) f in
  fst (Profile.handleImageChange (Some f) s) = Resolved tt
  /\ (startsWith (js "image/") (type f) = false ->
      rejected_locally "Please select an image file (PNG, JPG, etc.)" s s')
  /\ (startsWith (js "image/") (type f) = true ->
      5 * 1024 * 1024 < size f ->
      rejected_locally "Image size should be less than 5MB" s s')
  /\ (startsWith (js "image/") (type f) = true ->
      size f <= 5 * 1024 * 1024 ->
      (exists ok rest,
          issued s s' = (CallUploadBytes fileRef f, ok) :: rest)
      /\ (outage (services s) UploadBytes = false ->
          outage (services s) GetDownloadURL = false ->
          issued s s' = [(CallUploadBytes fileRef f, true);
                         (CallGetDownloadURL fileRef, true)]
          /\ bucket (services s') !! fileRef = Some f
          /\ profileImage (ui s') = Some (downloadURL (services s) fileRef)
          /\ isLoading (ui s') = false
          /\ error (ui s') = error (ui s))).
Proof.
  cbv zeta.
  split; [apply handleImageChange_settles|].
  run. split; [|split].
  - intros ->. cbn [negb]. project. unfold rejected_locally. project.
    repeat split. by issued_goal.
  - intros -> Hbig. cbn [negb].
    destruct (Z.ltb_spec (5 * 1024 * 1024) (size f)); [|lia].
    project. unfold rejected_locally. project. repeat split. by issued_goal.
  - intros -> Hsmall. cbn [negb].
    destruct (Z.ltb_spec (5 * 1024 * 1024) (size f)); [lia|].
    unfold Firebase.uploadBytes, Firebase.getDownloadURL. project. split.
    + destruct (outage (services s) UploadBytes); project.
      * eexists _, _. by issued_goal.
      * destruct (outage (services s) GetDownloadURL); project;
          [|destruct (_ !! _); project]; eexists _, _; by issued_goal.
    + intros -> Hurl. project. rewrite Hurl, lookup_insert_eq. project.
      repeat split; [by issued_goal | apply lookup_insert_eq].
Qed.

(** C10.  When the fetch made on mount is rejected, the effect still
    settles normally and sets no message: every cell is as it was, except
    that the fetching flag is cleared, so the form is on display with the
    values it had.  On a freshly mounted screen that means no error, no
    message, and the default values: the identity's display name (or the
    empty string) as username, the other fields empty. *)
Theorem failed_fetch_is_swallowed (cu : User) (s : Sys A) :
  currentUser (auth s) = Some cu ->
  outage (services s) GetDoc = true ->
  let s' := snd (Profile.fetchUserData s) in
  fst (Profile.fetchUserData s) = Resolved tt
  /\ issued s s' = [(CallGetDoc (uid cu), false)]
  /\ error (ui s') = error (ui s)
  /\ Runtime.message (ui s') = Runtime.message (ui s)
  /\ profileImage (ui s') = profileImage (ui s)
  /\ formValues (ui s') = formValues (ui s)
  /\ isLoading (ui s') = isLoading (ui s)
  /\ fetchingUserData (ui s') = false
  /\ Profile.interactive (ui s') = true
  /\ location s' = location s
  /\ (ui s = Profile.initial (Some cu) ->
      error (ui s') = ""
      /\ Runtime.message (ui s') = ""
      /\ formValues (ui s')
         = {| username := or_else (displayName cu) [];
              dob := []; mobileNumber := []; address := [] |}).
Proof.
  intros Hcu Hout. cbv zeta. run. rewrite Hcu.
  unfold Firebase.getDoc. project. rewrite Hout. project.
  unfold Profile.interactive. project.
  repeat split; try by issued_goal.
  all: match goal with H : ui _ = _ |- _ => by rewrite H end.
Qed.

(** C1.  A profile save that reaches the store (a user is signed in, the
    identity update and the write go through) merge-writes the record of
    that user's id: the stored record becomes the submitted fields laid
    over the fields stored before, with the user's email copied in and
    updatedAt set to the current time; every stored field the save does not
    write is still there, and no other user's record is touched.  At the
    level of the merge-write itself, writing an address after a username
    leaves a record holding both. *)
Theorem profile_save_merges :
  (forall (data : ProfileFormData) (cu : User) (a' : A) (s : Sys A),
      currentUser (auth s) = Some cu ->
      Auth.updateUserProfile (username data)
        (or_undefined (profileImage (ui s))) (auth s) = (Resolved tt, a') ->
      outage (services s) SetDoc = false ->
      let s' := snd (Profile.onSubmit data s) in
      let stored := default ∅ (users (services s) !! uid cu) in
      let written := Profile.record data (profileImage (ui s)) cu (clock s) in
      fst (Profile.onSubmit data s) = Resolved tt
      /\ users (services s') = <[uid cu := written ∪ stored]> (users (services s))
      /\ (exists saved,
            users (services s') !! uid cu = Some saved
            /\ saved !! "username" = Some (VString (username data))
            /\ saved !! "dob" = Some (VString (dob data))
            /\ saved !! "mobileNumber" = Some (VString (mobileNumber data))
            /\ saved !! "address" = Some (VString (address data))
            /\ saved !! "photoURL"
                 = Some (Profile.nullable (profileImage (ui s)))
            /\ saved !! "email" = Some (Profile.nullable (Auth.email cu))
            /\ saved !! "updatedAt"
                 = Some (VString (JSDate.toISOString (clock s)))
            /\ (forall k v, stored !! k = Some v ->
                            k ∉ Profile.writtenFields ->
                            saved !! k = Some v))
      /\ (forall id, id <> uid cu ->
                     users (services s') !! id = users (services s) !! id)
      /\ Runtime.message (ui s') = "Profile updated successfully!"
      /\ error (ui s') = "")
  /\ (forall (b : Services) (id X Y : jsstring),
      outage b SetDoc = false ->
      let b1 := snd (Firebase.setDoc_merge id {[ "username" := VString Y ]} b) in
      let b2 := snd (Firebase.setDoc_merge id {[ "address" := VString X ]} b1) in
      exists saved,
        users b2 !! id = Some saved
        /\ saved !! "username" = Some (VString Y)
        /\ saved !! "address" = Some (VString X)).
Proof.
  split.
  - intros data cu a' s Hcu Hupd Hout. cbv zeta. run. project.
    rewrite Hupd, Hcu. unfold Firebase.setDoc_merge. project.
    rewrite Hout. project. unfold merge.
    split; [reflexivity|]. split; [reflexivity|]. split; [|split; [|done]].
    + eexists. split; [apply lookup_insert_eq|].
      repeat split;
        try (apply lookup_union_Some_l; unfold Profile.record;
             repeat (rewrite lookup_insert_ne by done);
             apply lookup_insert_eq).
      intros k v Hk Hnot.
      rewrite lookup_union_r by (by apply record_unwritten). exact Hk.
    + intros id Hid. by rewrite lookup_insert_ne.
  - intros b id X Y Hout. cbv zeta. unfold Firebase.setDoc_merge.
    rewrite Hout. project. rewrite Hout. project. unfold merge.
    eexists. split; [apply lookup_insert_eq|].
    rewrite lookup_insert_eq. cbn [default]. split.
    + rewrite lookup_union_r by (by apply lookup_singleton_ne).
      apply lookup_union_Some_l, lookup_singleton_eq.
    + apply lookup_union_Some_l, lookup_singleton_eq.
Qed.

End ScreenClaims.

Section ProviderClaims.

Import Auth Firebase Runtime Zod Observe.


(** C9.  With the provider of the spec behind the auth context: when
    account creation goes through and the display-name update that follows
    is refused, the handler has made exactly those two calls and nothing
    to undo the first.  The account exists, with no display name, and its
    owner is signed in; yet the screen shows the account-creation failure
    message, is no longer loading, and has not navigated. *)
Theorem sign_up_without_compensation
    (d : SignUp.SignUpFormData) (s : Sys Provider.State)
    (p1 : Provider.State) (e : Err) :
  Provider.signUp (SignUp.email d) (SignUp.password d) (auth s)
    = (Resolved tt, p1) ->
  fst (Provider.updateUserProfile (SignUp.username d) None p1) = Rejected e ->
  let s' := snd (SignUp.onSubmit d s) in
  fst (SignUp.onSubmit d s) = Resolved tt
  /\ issued s s'
     = [(CallSignUp (SignUp.email d) (SignUp.password d), true);
        (CallUpdateUserProfile (SignUp.username d) None, false)]
  /\ auth s' = p1
  /\ (exists acct,
        Provider.accounts (auth s') !! SignUp.email d = Some acct
        /\ Provider.password acct = Some (SignUp.password d)
        /\ Auth.email (Provider.identity acct) = Some (SignUp.email d)
        /\ displayName (Provider.identity acct) = None)
  /\ Provider.authenticated (auth s') = true
  /\ error (ui s') = "Failed to create an account."
  /\ isLoading (ui s') = false
  /\ location s' = location s.
Proof.
  intros Hup Hprof. cbv zeta. run. project.
  cbn [Auth.signUp Auth.updateUserProfile Provider.context].
  rewrite Hup. project.
  assert (Provider.updateUserProfile (SignUp.username d) None p1
          = (Rejected e, p1)) as ->.
  { revert Hprof. unfold Provider.updateUserProfile.
    destruct (Provider.failing p1 Provider.OpUpdateProfile);
      [by intros [= ->]|].
    destruct (Provider.session p1); [|by intros [= ->]].
    destruct (_ !! _); [discriminate | by intros [= ->]]. }
  project.
  revert Hup. unfold Provider.signUp.
  destruct (Provider.failing (auth s) Provider.OpSignUp); [discriminate|].
  destruct (Provider.accounts (auth s) !! SignUp.email d) eqn:Hnew;
    [discriminate|].
  destruct (Provider.policy (auth s) (SignUp.password d)); [|discriminate].
  intros [= <-].
  split; [done|]. split; [by issued_goal|]. split; [done|]. split.
  - eexists. split; [apply lookup_insert_eq|]. done.
  - split; [|done].
    unfold Provider.authenticated, Provider.currentUser.
    cbn [Provider.session Provider.with_session Provider.with_accounts
         Provider.accounts mbind option_bind].
    by rewrite lookup_insert_eq.
Qed.

(** C6.  With the provider of the spec behind the auth context, what the
    forgot-password screen shows after a submission depends on whether the
    provider answered, and on nothing else: the handler settles normally;
    if the provider answered, the success message is shown and a reset
    message was dispatched to the address, whether or not an account exists
    for it; with no account, no reset is under way afterwards, and the
    screen is the same as with one.  Two systems showing the same screen
    whose providers are equally available end up showing the same screen,
    whatever accounts either holds. *)
Theorem reset_password_discloses_nothing
    (e : jsstring) (s : Sys Provider.State) :
  let d := {| ForgotPassword.email := e |} in
  let s' := snd (ForgotPassword.onSubmit d s) in
  fst (ForgotPassword.onSubmit d s) = Resolved tt
  /\ (Provider.failing (auth s) Provider.OpResetPassword = false ->
      Runtime.message (ui s')
        = "Check your inbox for password reset instructions."
      /\ error (ui s') = ""
      /\ isLoading (ui s') = false
      /\ issued s s' = [(CallResetPassword e, true)]
      /\ e ∈ Provider.outbox (auth s')
      /\ Provider.accounts (auth s') = Provider.accounts (auth s)
      /\ (Provider.accounts (auth s) !! e = None ->
          Provider.pendingResets (auth s') = Provider.pendingResets (auth s))
      /\ (is_Some (Provider.accounts (auth s) !! e) ->
          e ∈ Provider.pendingResets (auth s')))
  /\ (forall s2 : Sys Provider.State,
        ui s2 = ui s ->
        Provider.failing (auth s2) Provider.OpResetPassword
          = Provider.failing (auth s) Provider.OpResetPassword ->
        fst (ForgotPassword.onSubmit d s2) = fst (ForgotPassword.onSubmit d s)
        /\ ui (snd (ForgotPassword.onSubmit d s2)) = ui s').
Proof.
  cbv zeta. run. project.
  cbn [Auth.resetPassword Provider.context ForgotPassword.email].
  unfold Provider.resetPassword.
  split; [by destruct (Provider.failing (auth s) Provider.OpResetPassword)|].
  split.
  - intros ->. project. cbn [Provider.outbox Provider.accounts
      Provider.pendingResets].
    repeat split; try done.
    + by issued_goal.
    + set_solver.
    + by intros ->.
    + intros [acct ->]. set_solver.
  - intros s2 Hui Hsame. rewrite Hsame.
    destruct (Provider.failing (auth s) Provider.OpResetPassword); project;
      by rewrite Hui.
Qed.

End ProviderClaims.

(* ===================================================================== *)
(** * The theorems at work on the sample system *)
(* ===================================================================== *)

Section Instances.

Import Auth Firebase Runtime Zod Observe.

(** C5 on the sample login screen: "alice.example.com" has no at sign. *)
Lemma email_without_at_is_rejected_witness :
  (64%N ∉ js "alice.example.com")
  /\ exists s',
      Login.submit {| Login.email := js "alice.example.com";
                      Login.password := js "hunter22" |} Sample.atLogin
        = (Resolved tt, s')
      /\ formErrors s' !! "email" = Some "Please enter a valid email address"
      /\ stopped_at_validator Sample.atLogin s'.
Proof.
  assert (64%N ∉ js "alice.example.com") as Hno.
  { by_decide. }
  split; [exact Hno|].
  apply (proj1 (email_without_at_is_rejected
                  (js "alice.example.com") Sample.atLogin Hno)).
Defined.

(** C4 on the sample sign-up screen: "secret1" against "secret2". *)
Lemma password_mismatch_on_confirmation_witness :
  SignUp.password Sample.bobMistyped <> SignUp.confirmPassword Sample.bobMistyped
  /\ exists issues s',
      SignUp.signUpSchema Sample.bobMistyped = Failure issues
      /\ {| path := ["confirmPassword"];
            Zod.message := "Passwords don't match" |} ∈ issues
      /\ (forall i, i ∈ issues -> Zod.message i = "Passwords don't match" ->
                    path i = ["confirmPassword"])
      /\ SignUp.submit Sample.bobMistyped Sample.atSignUp = (Resolved tt, s')
      /\ formErrors s' !! "confirmPassword" = Some "Passwords don't match"
      /\ formErrors s' !! "password" <> Some "Passwords don't match"
      /\ stopped_at_validator Sample.atSignUp s'.
Proof.
  assert (SignUp.password Sample.bobMistyped
          <> SignUp.confirmPassword Sample.bobMistyped) as Hne
    by (vm_compute; discriminate).
  split; [exact Hne|].
  apply (password_mismatch_on_confirmation
           Sample.bobMistyped Sample.atSignUp Hne).
Defined.

(** C3 on the sample sign-up screen: "abc" as an age. *)
Lemma age_accepted_iff_number_at_least_18_witness :
  SignUp.age_check (SignUp.age Sample.bobNoAge) = false
  /\ exists s',
      SignUp.submit Sample.bobNoAge Sample.atSignUp = (Resolved tt, s')
      /\ formErrors s' !! "age" = Some "You must be at least 18 years old"
      /\ stopped_at_validator Sample.atSignUp s'.
Proof.
  assert (SignUp.age_check (SignUp.age Sample.bobNoAge) = false) as Habc
    by (vm_compute; reflexivity).
  split; [exact Habc|].
  apply (proj1 (proj2 (proj2
           (age_accepted_iff_number_at_least_18 (A := Provider.State))))
           Sample.bobNoAge Sample.atSignUp Habc).
Defined.

(** C7 on the sample sign-up screen, where identity updates are refused. *)
Lemma every_failure_returns_to_idle_witness :
  let s' := snd (SignUp.onSubmit Sample.bob Sample.atSignUp) in
  some_rejected (issued Sample.atSignUp s')
  /\ isLoading (ui s') = false
  /\ error (ui s') = "Failed to create an account.".
Proof.
  cbv zeta.
  match goal with |- ?H /\ _ => assert H as Hrej end.
  { exists (CallUpdateUserProfile (js "bob") None). by_decide. }
  split; [exact Hrej|].
  apply (proj2 (proj1 (proj2 (proj2
           (every_failure_returns_to_idle Sample.atSignUp))) Sample.bob) Hrej).
Defined.

(** C2 on the sample profile screen: a PDF, a 6 MB PNG and a 2 MB PNG. *)
Lemma photo_checked_before_upload_witness :
  (startsWith (js "image/") (type Sample.pdf) = false
   /\ rejected_locally "Please select an image file (PNG, JPG, etc.)"
        Sample.atProfile
        (snd (Profile.handleImageChange (Some Sample.pdf) Sample.atProfile)))
  /\ (startsWith (js "image/") (type Sample.png6MB) = true
   /\ 5 * 1024 * 1024 < size Sample.png6MB
   /\ rejected_locally "Image size should be less than 5MB" Sample.atProfile
        (snd (Profile.handleImageChange (Some Sample.png6MB) Sample.atProfile)))
  /\ (startsWith (js "image/") (type Sample.png2MB) = true
      /\ size Sample.png2MB <= 5 * 1024 * 1024
      /\ profileImage
           (ui (snd (Profile.handleImageChange (Some Sample.png2MB)
                       Sample.atProfile)))
         = Some (js "https://files.example/profileImages/alice@example.com/1700000000000-me.png")).
Proof.
  split; [|split].
  - assert (startsWith (js "image/") (type Sample.pdf) = false) as Hpdf
      by (vm_compute; reflexivity).
    split; [exact Hpdf|].
    apply (proj1 (proj2
             (photo_checked_before_upload Sample.pdf Sample.atProfile)) Hpdf).
  - assert (startsWith (js "image/") (type Sample.png6MB) = true) as Himg
      by (vm_compute; reflexivity).
    assert (5 * 1024 * 1024 < size Sample.png6MB) as Hbig
      by (vm_compute; reflexivity).
    split; [exact Himg|]. split; [exact Hbig|].
    apply (proj1 (proj2 (proj2
             (photo_checked_before_upload Sample.png6MB Sample.atProfile)))
             Himg Hbig).
  - assert (startsWith (js "image/") (type Sample.png2MB) = true) as Himg
      by (vm_compute; reflexivity).
    assert (size Sample.png2MB <= 5 * 1024 * 1024) as Hsmall
      by (vm_compute; discriminate).
    split; [exact Himg|]. split; [exact Hsmall|].
    pose proof (proj2 (proj2 (proj2 (proj2
             (photo_checked_before_upload Sample.png2MB Sample.atProfile)))
             Himg Hsmall) eq_refl eq_refl) as (_ & _ & Hpreview & _).
    rewrite Hpreview. vm_compute. reflexivity.
Defined.

(** C10 on the sample profile screen with an unreadable document store. *)
Lemma failed_fetch_is_swallowed_witness :
  let s := Sample.atProfileOffline in
  let s' := snd (Profile.fetchUserData s) in
  currentUser (auth s) = Some Sample.alice
  /\ outage (services s) GetDoc = true
  /\ fst (Profile.fetchUserData s) = Resolved tt
  /\ error (ui s') = ""
  /\ fetchingUserData (ui s') = false
  /\ formValues (ui s')
     = {| username := js "Alice"; dob := []; mobileNumber := [];
          address := [] |}.
Proof.
  cbv zeta.
  assert (currentUser (auth Sample.atProfileOffline) = Some Sample.alice)
    as Hcu by (vm_compute; reflexivity).
  assert (outage (services Sample.atProfileOffline) GetDoc = true)
    as Hout by reflexivity.
  split; [exact Hcu|]. split; [exact Hout|].
  pose proof (failed_fetch_is_swallowed Sample.alice Sample.atProfileOffline
                Hcu Hout) as H.
  cbv zeta in H.
  destruct H as (H1 & _ & _ & _ & _ & _ & _ & H8 & _ & _ & H11).
  destruct (H11 eq_refl) as (He & _ & Hf).
  split; [exact H1|]. split; [exact He|]. split; [exact H8|]. exact Hf.
Defined.

(** C1 on the sample profile screen: alice saves her profile. *)
Lemma profile_save_merges_witness :
  let s := Sample.atProfile in
  let s' := snd (Profile.onSubmit Sample.aliceProfile s) in
  currentUser (auth s) = Some Sample.alice
  /\ fst (Auth.updateUserProfile (username Sample.aliceProfile)
            (or_undefined (profileImage (ui s))) (auth s)) = Resolved tt
  /\ outage (services s) SetDoc = false
  /\ exists saved,
      users (services s') !! uid Sample.alice = Some saved
      /\ saved !! "address" = Some (VString (js "1 Main Street"))
      /\ saved !! "email" = Some (VString (js "alice@example.com"))
      /\ saved !! "updatedAt" = Some (VString (js "2023-11-14T22:13:20.000Z")).
Proof.
  cbv zeta.
  assert (currentUser (auth Sample.atProfile) = Some Sample.alice) as Hcu
    by (vm_compute; reflexivity).
  assert (Auth.updateUserProfile (username Sample.aliceProfile)
            (or_undefined (profileImage (ui Sample.atProfile)))
            (auth Sample.atProfile)
          = (Resolved tt,
             snd (Auth.updateUserProfile (username Sample.aliceProfile)
                    (or_undefined (profileImage (ui Sample.atProfile)))
                    (auth Sample.atProfile)))) as Hupd
    by (vm_compute; reflexivity).
  assert (outage (services Sample.atProfile) SetDoc = false) as Hout
    by reflexivity.
  split; [exact Hcu|]. split; [by rewrite Hupd|]. split; [exact Hout|].
  pose proof (proj1 (profile_save_merges (A := Provider.State))
                Sample.aliceProfile Sample.alice _ Sample.atProfile
                Hcu Hupd Hout) as H.
  cbv zeta in H.
  destruct H as (_ & _ & (saved & Hs & _ & _ & _ & Haddr & _ & Hmail & Hat & _)
                 & _).
  exists saved. split; [exact Hs|]. split; [exact Haddr|].
  split; [exact Hmail|]. rewrite Hat. vm_compute. reflexivity.
Defined.



(** C9 on the sample sign-up screen, where identity updates are refused:
    bob's account is created all the same. *)
Lemma sign_up_without_compensation_witness :
  let s := Sample.atSignUp in
  let p1 := snd (Provider.signUp (SignUp.email Sample.bob)
                   (SignUp.password Sample.bob) (auth s)) in
  let s' := snd (SignUp.onSubmit Sample.bob s) in
  Provider.signUp (SignUp.email Sample.bob) (SignUp.password Sample.bob)
    (auth s) = (Resolved tt, p1)
  /\ fst (Provider.updateUserProfile (SignUp.username Sample.bob) None p1)
     = Rejected UpdateFailed
  /\ Provider.authenticated (auth s') = true
  /\ error (ui s') = "Failed to create an account."
  /\ location s' = "/signup".
Proof.
  cbv zeta.
  set (p1 := snd (Provider.signUp (SignUp.email Sample.bob)
                    (SignUp.password Sample.bob) (auth Sample.atSignUp))).
  assert (Provider.signUp (SignUp.email Sample.bob)
            (SignUp.password Sample.bob) (auth Sample.atSignUp)
          = (Resolved tt, p1)) as Hup by (vm_compute; reflexivity).
  assert (fst (Provider.updateUserProfile (SignUp.username Sample.bob) None p1)
          = Rejected UpdateFailed) as Hprof by (vm_compute; reflexivity).
  split; [exact Hup|]. split; [exact Hprof|].
  pose proof (sign_up_without_compensation Sample.bob Sample.atSignUp p1
                UpdateFailed Hup Hprof) as H.
  cbv zeta in H.
  destruct H as (_ & _ & _ & _ & Hauth & Herr & _ & Hloc).
  split; [exact Hauth|]. split; [exact Herr|]. exact Hloc.
Defined.

(** C6 on the sample forgot-password screen: an address nobody owns. *)
Lemma reset_password_discloses_nothing_witness :
  let s := Sample.atForgotPassword in
  let s' := snd (ForgotPassword.onSubmit
                   {| ForgotPassword.email := js "nobody@example.com" |} s) in
  Provider.failing (auth s) Provider.OpResetPassword = false
  /\ Provider.accounts (auth s) !! js "nobody@example.com" = None
  /\ Runtime.message (ui s')
     = "Check your inbox for password reset instructions."
  /\ error (ui s') = ""
  /\ Provider.pendingResets (auth s') = Provider.pendingResets (auth s).
Proof.
  cbv zeta.
  assert (Provider.failing (auth Sample.atForgotPassword)
            Provider.OpResetPassword = false) as Hup by reflexivity.
  assert (Provider.accounts (auth Sample.atForgotPassword)
            !! js "nobody@example.com" = None) as Hnone
    by (vm_compute; reflexivity).
  split; [exact Hup|]. split; [exact Hnone|].
  pose proof (reset_password_discloses_nothing (js "nobody@example.com")
                Sample.atForgotPassword) as H.
  cbv zeta in H. destruct H as (_ & Hyes & _).
  destruct (Hyes Hup) as (Hmsg & Herr & _ & _ & _ & _ & Hsilent & _).
  split; [exact Hmsg|]. split; [exact Herr|]. exact (Hsilent Hnone).
Defined.

End Instances.

(* ===================================================================== *)
(** * Further properties of the screens *)
(* ===================================================================== *)

(** ** Facts about shapes *)

Section ShapeFacts.

Import JS Num Pattern Zod Auth Firebase Runtime Shape.

Lemma ltb_leb_nat n m : (n <? m)%nat = negb (m <=? n)%nat.
Proof. destruct (Nat.ltb_spec n m), (Nat.leb_spec m n); (reflexivity || lia). Qed.

Lemma Matches_Cls p s : Matches (Cls p) s -> exists c, s = [c] /\ p c = true.
Proof. intros H. inversion H; subst. eauto. Qed.

Lemma Matches_Star_Cls p s :
  Matches (Star (Cls p)) s <-> Forall (fun c => p c = true) s.
Proof.
  split.
  - intros H. remember (Star (Cls p)) as r eqn:E.
    induction H; try discriminate; injection E as ->.
    + constructor.
    + apply Matches_Cls in H as (c & -> & Hc). simpl. constructor; auto.
  - induction 1 as [|c s Hc _ IH].
    + constructor.
    + change (c :: s) with ([c] ++ s). constructor; [by constructor | exact IH].
Qed.

Lemma Matches_Plus_Cls p s :
  Matches (Plus (Cls p)) s <-> s <> [] /\ Forall (fun c => p c = true) s.
Proof.
  unfold Plus. split.
  - intros H. inversion H as [| |? ? s1 s2 H1 H2| | | |]; subst.
    apply Matches_Cls in H1 as (c & -> & Hc).
    apply Matches_Star_Cls in H2. split; [done|]. simpl. by constructor.
  - intros [Hne Hall]. destruct s as [|c s]; [done|].
    inversion Hall; subst.
    change (c :: s) with ([c] ++ s).
    constructor; [by constructor | by apply Matches_Star_Cls].
Qed.

(** Blanks at either end do not survive [trim]. *)
Lemma trimStart_blank_app pre s :
  blank pre -> trimStart (pre ++ s) = trimStart s.
Proof. induction 1 as [|c pre Hc _ IH]; simpl; [done|]. by rewrite Hc. Qed.

Lemma trimStart_blank s : blank s -> trimStart s = [].
Proof. intros H. rewrite <- (app_nil_r s). by rewrite trimStart_blank_app. Qed.

Lemma trimStart_app_blank s post :
  blank post ->
  trimStart (s ++ post)
  = match trimStart s with [] => [] | t => t ++ post end.
Proof.
  intros Hpost. induction s as [|c s IH]; simpl.
  - by apply trimStart_blank.
  - destruct (isStrWhiteSpaceChar c); [exact IH | reflexivity].
Qed.

Lemma blank_rev s : blank s -> blank (rev s).
Proof.
  unfold blank. rewrite !List.Forall_forall. intros H c Hc.
  apply H. by apply in_rev.
Qed.

Lemma trim_blank_pad pre s post :
  blank pre -> blank post -> trim (pre ++ s ++ post) = trim s.
Proof.
  intros Hpre Hpost. unfold trim.
  rewrite trimStart_blank_app by done.
  rewrite trimStart_app_blank by done.
  destruct (trimStart s) as [|c t] eqn:E; [done|].
  change (match c :: t with [] => [] | _ => (c :: t) ++ post end)
    with ((c :: t) ++ post).
  rewrite rev_app_distr. by rewrite trimStart_blank_app by by apply blank_rev.
Qed.

(** What an unsigned literal denotes is never below zero. *)
Lemma span_digits_digits s ds r :
  span_digits s = (ds, r) -> Forall (fun c => isDigit c = true) ds.
Proof.
  revert ds r. induction s as [|c s IH]; simpl; intros ds r E.
  - injection E as <- <-. constructor.
  - destruct (isDigit c) eqn:Hc.
    + destruct (span_digits s) as [ds' r'] eqn:E'.
      injection E as <- <-. constructor; eauto.
    + injection E as <- <-. constructor.
Qed.

Lemma digits_fold_nonneg ds : forall acc,
  0 <= acc -> Forall (fun c => isDigit c = true) ds ->
  0 <= fold_left (fun acc c => 10 * acc + digit_value c) ds acc.
Proof.
  induction ds as [|c ds IH]; simpl; intros acc Hacc Hds; [done|].
  inversion Hds as [|? ? Hc Hr]; subst. apply IH; [|done].
  unfold isDigit in Hc. apply andb_true_iff in Hc as [H1 _].
  apply N.leb_le in H1. unfold digit_value. lia.
Qed.

Lemma digits_value_nonneg ds :
  Forall (fun c => isDigit c = true) ds -> 0 <= digits_value ds.
Proof. intros H. by apply digits_fold_nonneg. Qed.

Lemma round_half_even_nonneg n d :
  0 <= n -> 0 < d -> 0 <= round_half_even n d.
Proof.
  intros Hn Hd. etransitivity; [|apply round_half_even_lower].
  by apply Z.div_pos.
Qed.

Lemma round64_not_negative n d :
  0 <= n -> 0 < d -> not_negative (round64 n d).
Proof.
  intros Hn Hd. unfold round64.
  destruct (Z.eqb_spec n 0); [simpl; lia|].
  destruct (Z.ltb_spec 0 n); [|lia].
  unfold round64_pos.
  match goal with |- not_negative (if ?c then _ else _) => destruct c end;
    [reflexivity|].
  simpl. destruct (Z.leb_spec 0 (Z.max (floor_log2_ratio n d) (-1022) - 52)).
  - apply round_half_even_nonneg; [lia|].
    apply Z.mul_pos_pos; [lia|]. by apply Z.pow_pos_nonneg.
  - apply round_half_even_nonneg; [|lia].
    apply Z.mul_nonneg_nonneg; [lia|]. apply Z.pow_nonneg. lia.
Qed.

Lemma of_decimal_not_negative m e : 0 <= m -> not_negative (of_decimal m e).
Proof.
  intros Hm. unfold of_decimal. destruct (Z.leb_spec 0 e).
  - apply round64_not_negative; [|lia].
    apply Z.mul_nonneg_nonneg; [lia|]. apply Z.pow_nonneg. lia.
  - apply round64_not_negative; [lia|]. apply Z.pow_pos_nonneg; lia.
Qed.

Lemma unsignedDecimalLiteral_not_negative s v :
  unsignedDecimalLiteral s = Some v -> not_negative v.
Proof.
  unfold unsignedDecimalLiteral.
  destruct (strict_eq s (js "Infinity")); [by intros [= <-]|].
  destruct (span_digits s) as [ip r1] eqn:E1.
  assert (exists fp r2, fractionPart r1 = (fp, r2)
                        /\ Forall (fun c => isDigit c = true) fp)
    as (fp & r2 & -> & Hfp).
  { unfold fractionPart. destruct r1 as [|c r]; [by exists [], []|].
    destruct (c =? 46)%N.
    - destruct (span_digits r) as [fp r2] eqn:E2.
      exists fp, r2. split; [done|]. by eapply span_digits_digits.
    - by exists [], (c :: r). }
  destruct (ip ++ fp) eqn:Eapp; [discriminate|]. rewrite <- Eapp.
  destruct (exponentPart r2); [|discriminate].
  intros [= <-]. apply of_decimal_not_negative, digits_value_nonneg.
  apply Forall_app. split; [by eapply span_digits_digits | done].
Qed.

Lemma ge_negate_not_negative v :
  not_negative v -> negb (isNaN (negate v)) && ge (negate v) (lit 18) = false.
Proof.
  destruct v as [|neg|m e]; simpl; [done| by intros ->|].
  intros Hm. unfold fin_leb. apply Z.leb_gt.
  assert (0 < 2 ^ (0 - Z.min 0 e)) by (apply Z.pow_pos_nonneg; lia).
  assert (0 <= 2 ^ (e - Z.min 0 e)) by (apply Z.pow_nonneg; lia).
  nia.
Qed.

Lemma trimStart_snoc c l :
  isStrWhiteSpaceChar c = false -> exists t, trimStart (l ++ [c]) = t ++ [c].
Proof.
  intros Hc. induction l as [|x l IH]; simpl.
  - rewrite Hc. by exists [].
  - destruct (isStrWhiteSpaceChar x); [exact IH|]. by exists (x :: l).
Qed.

Lemma trim_minus s : exists s', trim (45%N :: s) = 45%N :: s'.
Proof.
  unfold trim. cbn [trimStart].
  replace (isStrWhiteSpaceChar 45) with false by reflexivity.
  simpl rev. destruct (trimStart_snoc 45 (rev s) eq_refl) as [t ->].
  rewrite rev_app_distr. simpl. by eexists.
Qed.

(** [String(t)] of a time that is not negative: digits, read back as [t]. *)
Lemma of_int_digits t :
  0 <= t ->
  Forall (fun c => isDigit c = true) (of_int t) /\ digits_value (of_int t) = t.
Proof.
  intros Ht. unfold of_int. destruct t as [|p|p]; [| |lia].
  - split; [by repeat constructor | reflexivity].
  - cbn [Z.to_int NilZero.string_of_int]. unfold NilZero.string_of_uint.
    pose proof (DecimalPos.Unsigned.to_uint_nonnil p) as Hnn.
    destruct (Pos.to_uint p) eqn:E; [done|..]; rewrite <- E;
      (split; [apply uint_digits|];
       rewrite digits_value_uint; unfold Z.of_uint;
       by rewrite DecimalPos.Unsigned.of_to).
Qed.

Lemma digits_then_dash ds1 : forall ds2 r1 r2,
  Forall (fun c => isDigit c = true) ds1 ->
  Forall (fun c => isDigit c = true) ds2 ->
  ds1 ++ 45%N :: r1 = ds2 ++ 45%N :: r2 -> ds1 = ds2 /\ r1 = r2.
Proof.
  induction ds1 as [|c ds1 IH]; intros [|c' ds2] r1 r2 H1 H2 E; simpl in E.
  - by injection E as ->.
  - injection E as <- _. by inversion H2.
  - injection E as -> _. by inversion H1.
  - injection E as -> E. inversion H1; inversion H2; subst.
    destruct (IH ds2 r1 r2) as [-> ->]; done.
Qed.

Lemma startsWith_app p x : startsWith p (p ++ x) = true.
Proof. induction p as [|c p IH]; simpl; [done|]. by rewrite N.eqb_refl. Qed.

Lemma photoPath_in_folder cu t f :
  startsWith (photoFolder cu) (Profile.photoPath cu t f) = true.
Proof.
  replace (Profile.photoPath cu t f)
    with (photoFolder cu ++ of_int t ++ js "-" ++ name f)
    by (unfold photoFolder, Profile.photoPath; by rewrite <- !app_assoc).
  apply startsWith_app.
Qed.

(** The object literal of a save has all of its seven fields, whatever the
    values. *)
Lemma record_written data img cu t k :
  k ∈ Profile.writtenFields -> is_Some (Profile.record data img cu t !! k).
Proof.
  unfold Profile.writtenFields, Profile.record. intros Hk.
  repeat (apply elem_of_cons in Hk as [->|Hk];
          [repeat (rewrite lookup_insert_ne by done);
           rewrite lookup_insert_eq; by eexists|]).
  by apply elem_of_nil in Hk.
Qed.

(** A later record covers an earlier one: under it, the earlier one leaves
    no trace. *)
Lemma record_covers d1 d2 img1 img2 cu1 cu2 t1 t2
    (stored : gmap string FieldValue) :
  Profile.record d2 img2 cu2 t2 ∪ (Profile.record d1 img1 cu1 t1 ∪ stored)
  = Profile.record d2 img2 cu2 t2 ∪ stored.
Proof.
  apply map_eq. intros k.
  destruct (decide (k ∈ Profile.writtenFields)) as [Hin|Hout].
  - destruct (record_written d2 img2 cu2 t2 k Hin) as [v Hv].
    by rewrite !(lookup_union_Some_l _ _ _ _ Hv).
  - rewrite !lookup_union_r by by apply record_unwritten. done.
Qed.

Lemma or_else_str_field d k fb :
  or_else (Profile.str_field d k) fb = shown (d !! k) fb.
Proof.
  unfold Profile.str_field, shown, or_else.
  destruct (d !! k) as [[[|c x]|]|]; reflexivity.
Qed.

(** What passes the profile schema has no empty field. *)
Lemma profile_valid_fields (d : ProfileFormData) :
  Profile.profileSchema d = Success d ->
  truthy (username d) = true /\ truthy (dob d) = true
  /\ truthy (mobileNumber d) = true /\ truthy (address d) = true.
Proof.
  unfold Profile.profileSchema, z_object, field, z_min, z_refine, z_string.
  destruct (Nat.ltb_spec (length (username d)) 3);
    destruct (truthy (dob d));
    destruct (Nat.ltb_spec (length (mobileNumber d)) 10);
    destruct (Pattern.test Profile.mobileRegex (mobileNumber d));
    destruct (Nat.ltb_spec (length (address d)) 5);
    cbn [app map]; try discriminate.
  intros _.
  destruct (username d), (mobileNumber d), (address d); simpl in *;
    (lia || done).
Qed.

Lemma profile_onSubmit_formErrors {A} `{AC : AuthContext A}
    (v : ProfileFormData) (s : Sys A) :
  formErrors (snd (Profile.onSubmit v s)) = formErrors s.
Proof.
  run. project.
  destruct (Auth.updateUserProfile _ _ _) as [[[]|e] a]; [|done].
  destruct (currentUser (auth s)) as [cu|]; [|done].
  unfold Firebase.setDoc_merge. project.
  by destruct (outage (services s) SetDoc).
Qed.

End ShapeFacts.

(** ** What the validators let through *)

Section SchemaProperties.

Import JS Num Pattern Zod Runtime Shape.

(** X4.  Whatever passes the sign-up schema also passes the schemas met
    later: its email and password pass the login schema, its email passes
    the forgot-password schema, and its username raises no issue in the
    profile schema, whatever the other profile fields hold. *)
Theorem schemas_agree_across_screens (v : SignUp.SignUpFormData) :
  SignUp.signUpSchema v = Success v ->
  Login.loginSchema {| Login.email := SignUp.email v;
                       Login.password := SignUp.password v |}
    = Success {| Login.email := SignUp.email v;
                 Login.password := SignUp.password v |}
  /\ ForgotPassword.forgotPasswordSchema
       {| ForgotPassword.email := SignUp.email v |}
     = Success {| ForgotPassword.email := SignUp.email v |}
  /\ forall d m a,
       violations (Profile.profileSchema
                     {| username := SignUp.username v; dob := d;
                        mobileNumber := m; address := a |}) ["username"] = [].
Proof.
  unfold SignUp.signUpSchema, Login.loginSchema,
    ForgotPassword.forgotPasswordSchema, Profile.profileSchema,
    z_object, field, z_email, z_min, z_refine, z_string.
  cbn [Login.email Login.password ForgotPassword.email username dob
       mobileNumber address].
  destruct (length (SignUp.username v) <? 3)%nat;
    destruct (emailRegex_test (SignUp.email v));
    destruct (length (SignUp.password v) <? 6)%nat;
    destruct (SignUp.age_check (SignUp.age v));
    destruct (strict_eq (SignUp.password v) (SignUp.confirmPassword v));
    cbn [app map]; try discriminate.
  intros _. split; [done|]. split; [done|]. intros d m a.
  destruct (truthy d); destruct (length m <? 10)%nat;
    destruct (Pattern.test Profile.mobileRegex m);
    destruct (length a <? 5)%nat; reflexivity.
Qed.

(** X5.  Blanks before and after the age do not matter to the age check:
    padding a value with white space or line terminators on either side
    leaves the verdict as it is. *)
Theorem age_ignores_surrounding_blanks (pre s post : jsstring) :
  blank pre -> blank post ->
  SignUp.age_check (pre ++ s ++ post) = SignUp.age_check s.
Proof.
  intros Hpre Hpost. unfold SignUp.age_check, StringToNumber.
  by rewrite trim_blank_pad.
Qed.

(** X6.  No age written with a leading minus sign passes the age check,
    whatever follows the sign and whatever blanks precede it. *)
Theorem age_rejects_leading_minus (pre s : jsstring) :
  blank pre -> SignUp.age_check (pre ++ 45%N :: s) = false.
Proof.
  intros Hpre.
  replace (pre ++ 45%N :: s) with (pre ++ (45%N :: s) ++ [])
    by by rewrite app_nil_r.
  unfold SignUp.age_check, StringToNumber.
  rewrite trim_blank_pad by (done || constructor).
  destruct (trim_minus s) as [s' ->].
  assert (nonDecimalLiteral (45%N :: s') = None) as ->.
  { unfold nonDecimalLiteral. by destruct s' as [|p [|x r]]. }
  unfold decimalLiteral, signed. cbn [N.eqb Pos.eqb].
  destruct (unsignedDecimalLiteral s') as [v|] eqn:E; [|reflexivity].
  cbn [fmap option_fmap option_map].
  by apply ge_negate_not_negative, (unsignedDecimalLiteral_not_negative s').
Qed.

(** X10.  The mobile-number pattern accepts exactly the strings made of an
    optional plus sign followed by one or more digits, blanks, dashes or
    parentheses; in particular it does not ask for a digit. *)
Theorem mobile_pattern_shape (s : jsstring) :
  test Profile.mobileRegex s = true <-> mobile_shape s.
Proof.
  rewrite test_spec. unfold Profile.mobileRegex, Opt, mobile_shape. split.
  - intros H. inversion H as [| |? ? s1 s2 H1 H2| | | |]; subst.
    apply Matches_Plus_Cls in H2 as [Hne Hall].
    exists s2. split; [|done].
    inversion H1 as [| | |? ? ? He|? ? ? Hp| |]; subst.
    + inversion He. by left.
    + apply Matches_Chr in Hp as ->. by right.
  - intros (body & [-> | ->] & Hne & Hall).
    + change body with ([] ++ body). constructor.
      * apply MAltL. constructor.
      * by apply Matches_Plus_Cls.
    + change (43%N :: body) with ([43%N] ++ body). constructor.
      * apply MAltR. constructor. reflexivity.
      * by apply Matches_Plus_Cls.
Qed.

(** X20.  The storage key of a photo determines when it was uploaded and
    the name of the file: for one user and times that are not negative, two
    keys are equal only if the times and the file names are.  So uploads at
    different times never collide. *)
Theorem photo_key_determines_time_and_name
    (cu : option Auth.User) (t1 t2 : Z) (f1 f2 : Firebase.File) :
  0 <= t1 -> 0 <= t2 ->
  Profile.photoPath cu t1 f1 = Profile.photoPath cu t2 f2 ->
  t1 = t2 /\ Firebase.name f1 = Firebase.name f2.
Proof.
  intros H1 H2. unfold Profile.photoPath. intros E.
  do 3 apply app_inv_head in E.
  destruct (of_int_digits t1 H1) as [Hd1 Hv1].
  destruct (of_int_digits t2 H2) as [Hd2 Hv2].
  change (js "-" ++ Firebase.name f1) with (45%N :: Firebase.name f1) in E.
  change (js "-" ++ Firebase.name f2) with (45%N :: Firebase.name f2) in E.
  destruct (digits_then_dash _ _ _ _ Hd1 Hd2 E) as [Ht Hn].
  split; [|exact Hn]. rewrite <- Hv1, <- Hv2. by rewrite Ht.
Qed.

End SchemaProperties.

Section SubmissionProperties.

Import JS Auth Firebase Runtime Zod Observe Shape.

Context {A : Type} `{AC : AuthContext A}.

(** X1.  A login submission issues at most one remote call.  When the email
    matches the email pattern and the password has six code units or more,
    the field errors are cleared and exactly one sign-in call goes out,
    carrying the email and the password as submitted.  When the password is
    shorter, or the email does not match, the matching message is on the
    field and nothing else happens. *)
Theorem login_calls_only_when_valid (v : Login.LoginFormData) (s : Sys A) :
  let s' := snd (Login.submit v s) in
  (emailRegex_test (Login.email v) = true ->
   (6 <= length (Login.password v))%nat ->
   formErrors s' = ∅
   /\ exists ok,
       issued s s' = [(CallSignIn (Login.email v) (Login.password v), ok)])
  /\ ((length (Login.password v) < 6)%nat ->
      formErrors s' !! "password"
        = Some "Password must be at least 6 characters"
      /\ stopped_at_validator s s')
  /\ (emailRegex_test (Login.email v) = false ->
      formErrors s' !! "email" = Some "Please enter a valid email address"
      /\ stopped_at_validator s s').
Proof.
  cbv zeta.
  unfold Login.submit, handleSubmit, Login.loginSchema, z_object, field,
    z_email, z_min, z_string.
  destruct (emailRegex_test (Login.email v)) eqn:He;
    destruct (Nat.ltb_spec (length (Login.password v)) 6) as [Hlt|Hge];
    cbn [app map]; (split; [|split]); try (intros; lia); try discriminate.
  all: try (intros _; cbn [snd formErrors];
            rewrite ?parseErrorSchema_lookup; by repeat split).
  - intros _ _. run. project.
    destruct (Auth.signIn _ _ _) as [[[]|e] a]; project;
      (split; [done|]; eexists; by issued_goal).
Qed.

(** X2.  The sign-up schema accepts a form exactly when all five rules
    hold: username of three code units or more, email matching the pattern,
    password of six or more, confirmation equal to the password, age check
    passed.  A form that fails stops at the validator with some field
    error.  A form that passes clears the field errors, and every call its
    submission issues is the account creation with the submitted email and
    password or the identity update with the submitted username and no
    photo: the age and the confirmation are never sent. *)
Theorem signUp_calls_only_when_valid
    (v : SignUp.SignUpFormData) (s : Sys A) :
  let s' := snd (SignUp.submit v s) in
  (SignUp.signUpSchema v = Success v <-> signUp_ok v = true)
  /\ (signUp_ok v = false ->
      stopped_at_validator s s' /\ formErrors s' <> ∅)
  /\ (signUp_ok v = true ->
      formErrors s' = ∅
      /\ Forall (fun x =>
                   fst x = CallSignUp (SignUp.email v) (SignUp.password v)
                   \/ fst x = CallUpdateUserProfile (SignUp.username v) None)
                (issued s s'))
  /\ ((length (SignUp.username v) < 3)%nat ->
      formErrors s' !! "username"
        = Some "Username must be at least 3 characters")
  /\ ((length (SignUp.password v) < 6)%nat ->
      formErrors s' !! "password"
        = Some "Password must be at least 6 characters").
Proof.
  cbv zeta.
  unfold signUp_ok, SignUp.submit, handleSubmit, SignUp.signUpSchema,
    z_object, field, z_email, z_min, z_refine, z_string.
  rewrite !ltb_leb_nat.
  destruct (Nat.leb_spec 3 (length (SignUp.username v)));
    destruct (emailRegex_test (SignUp.email v));
    destruct (Nat.leb_spec 6 (length (SignUp.password v)));
    destruct (strict_eq (SignUp.password v) (SignUp.confirmPassword v));
    destruct (SignUp.age_check (SignUp.age v));
    cbn [negb andb app map];
    (split; [by split|]; split; [|split; [|split]]);
    try discriminate; try (intros; lia);
    try (intros _; cbn [snd formErrors];
         rewrite ?parseErrorSchema_lookup; try done).
  all: try (split; [by repeat split|];
            intros E;
            apply (f_equal (fun m : gmap string string => size m)) in E;
            vm_compute in E; discriminate).
  run. project.
  destruct (Auth.signUp _ _ _) as [[[]|e] a]; project;
    [destruct (Auth.updateUserProfile _ _ _) as [[[]|e] a']; project|];
    (split; [done|]; issued_goal;
     repeat (constructor; [cbn [fst]; tauto|]); constructor).
Qed.

(** X9.  The profile schema accepts a form exactly when username has three
    code units or more, the date of birth is not empty, the mobile number
    has ten or more and matches its pattern, and the address has five or
    more.  A form that fails stops at the validator with some field error;
    a form that passes is handed to the save handler with the field errors
    cleared.  A short username, an empty date of birth and a short address
    each show their own message. *)
Theorem profile_calls_only_when_valid (v : ProfileFormData) (s : Sys A) :
  let s' := snd (Profile.submit v s) in
  (Profile.profileSchema v = Success v <-> profile_ok v = true)
  /\ (profile_ok v = false ->
      stopped_at_validator s s' /\ formErrors s' <> ∅)
  /\ (profile_ok v = true ->
      Profile.submit v s = Profile.onSubmit v (snd (setFormErrors ∅ s)))
  /\ ((length (username v) < 3)%nat ->
      formErrors s' !! "username"
        = Some "Username must be at least 3 characters")
  /\ (dob v = [] ->
      formErrors s' !! "dob" = Some "Date of birth is required")
  /\ ((length (address v) < 5)%nat ->
      formErrors s' !! "address"
        = Some "Address must be at least 5 characters").
Proof.
  cbv zeta.
  unfold profile_ok, Profile.submit, handleSubmit, Profile.profileSchema,
    z_object, field, z_min, z_refine, z_string.
  rewrite !ltb_leb_nat.
  destruct (Nat.leb_spec 3 (length (username v)));
    destruct (dob v) as [|c0 dob'] eqn:Hdob;
    destruct (Nat.leb_spec 10 (length (mobileNumber v)));
    destruct (Pattern.test Profile.mobileRegex (mobileNumber v));
    destruct (Nat.leb_spec 5 (length (address v)));
    cbn [negb andb app map truthy];
    (split; [by split|]; split; [|split; [|split; [|split]]]);
    try discriminate; try (intros; lia); try done;
    try (intros _; cbn [snd formErrors];
         rewrite ?parseErrorSchema_lookup; try done).
  all: split; [by repeat split|];
       intros E; apply (f_equal (fun m : gmap string string => size m)) in E;
       vm_compute in E; discriminate.
Qed.

(** X11.  On the mobile-number field the length rule speaks first: a value
    shorter than ten code units shows the length message even when it also
    breaks the pattern (the schema then holds both issues, in that order);
    the pattern message shows only for a value of ten or more that breaks
    the pattern; a value of ten or more that matches leaves the field
    without error. *)
Theorem mobile_length_message_first (v : ProfileFormData) (s : Sys A) :
  let s' := snd (Profile.submit v s) in
  let m := mobileNumber v in
  violations (Profile.profileSchema v) ["mobileNumber"]
  = (if (length m <? 10)%nat
     then ["Mobile number must be at least 10 digits"] else [])
    ++ (if Pattern.test Profile.mobileRegex m then []
        else ["Please enter a valid mobile number"])
  /\ ((length m < 10)%nat ->
      formErrors s' !! "mobileNumber"
        = Some "Mobile number must be at least 10 digits")
  /\ ((10 <= length m)%nat -> Pattern.test Profile.mobileRegex m = false ->
      formErrors s' !! "mobileNumber"
        = Some "Please enter a valid mobile number")
  /\ ((10 <= length m)%nat -> Pattern.test Profile.mobileRegex m = true ->
      formErrors s' !! "mobileNumber" = None).
Proof.
  cbv zeta.
  unfold Profile.submit, handleSubmit, Profile.profileSchema,
    z_object, field, z_min, z_refine, z_string.
  destruct (Nat.ltb_spec (length (username v)) 3);
    destruct (truthy (dob v));
    destruct (Nat.ltb_spec (length (mobileNumber v)) 10);
    destruct (Pattern.test Profile.mobileRegex (mobileNumber v));
    destruct (Nat.ltb_spec (length (address v)) 5);
    cbn [app map];
    (split; [reflexivity|]; split; [|split]);
    try discriminate; try (intros; lia);
    try (intros; cbn [snd formErrors];
         rewrite ?parseErrorSchema_lookup; try done).
  change ((setFormErrors ∅ ≫= λ _ : (), Profile.onSubmit v) s)
    with (Profile.onSubmit v (snd (setFormErrors ∅ s))).
  by rewrite profile_onSubmit_formErrors.
Qed.

End SubmissionProperties.

(** ** How the handlers end *)

Section HandlerProperties.

Import JS Auth Firebase Runtime Zod Observe Shape.

Context {A : Type} `{AC : AuthContext A}.

(** X3.  Sign-up runs its two calls in order.  If account creation is
    rejected, the identity update is never attempted: the one call is all
    that was issued, the location stays and the failure message shows.  If
    it resolves, the identity update follows on the state it left; the
    screen navigates to /profile, with no error, exactly when that update
    resolves too, and otherwise stays with the failure message.  Either
    way the loading flag ends cleared and the hosted services untouched. *)
Theorem signUp_steps_in_order (d : SignUp.SignUpFormData) (s : Sys A) :
  let r1 := Auth.signUp (SignUp.email d) (SignUp.password d) (auth s) in
  let r2 := Auth.updateUserProfile (SignUp.username d) None (snd r1) in
  let s' := snd (SignUp.onSubmit d s) in
  isLoading (ui s') = false
  /\ services s' = services s
  /\ (resolved (fst r1) = false ->
      issued s s'
        = [(CallSignUp (SignUp.email d) (SignUp.password d), false)]
      /\ auth s' = snd r1
      /\ location s' = location s
      /\ error (ui s') = "Failed to create an account.")
  /\ (resolved (fst r1) = true ->
      issued s s'
        = [(CallSignUp (SignUp.email d) (SignUp.password d), true);
           (CallUpdateUserProfile (SignUp.username d) None, resolved (fst r2))]
      /\ auth s' = snd r2
      /\ (resolved (fst r2) = true ->
          location s' = "/profile" /\ error (ui s') = "")
      /\ (resolved (fst r2) = false ->
          location s' = location s
          /\ error (ui s') = "Failed to create an account.")).
Proof.
  cbv zeta. run. project.
  destruct (Auth.signUp _ _ _) as [[[]|e] a]; project.
  - destruct (Auth.updateUserProfile _ _ _) as [[[]|e] a']; project;
      repeat split; try done; try by issued_goal.
  - repeat split; try done; by issued_goal.
Qed.

(** X7.  The Google button issues exactly one call and reads no form value:
    the field errors and the hosted services stay as they were and the
    loading flag ends cleared.  The screen navigates to /profile, with the
    error cleared, exactly when the call resolves; when it is rejected the
    location stays and the Google failure message shows. *)
Theorem google_sign_in_outcomes (s : Sys A) :
  let r := Auth.googleSignIn (auth s) in
  let s' := snd (Login.handleGoogleSignIn s) in
  issued s s' = [(CallGoogleSignIn, resolved (fst r))]
  /\ auth s' = snd r
  /\ isLoading (ui s') = false
  /\ formErrors s' = formErrors s
  /\ services s' = services s
  /\ (resolved (fst r) = true ->
      location s' = "/profile" /\ error (ui s') = "")
  /\ (resolved (fst r) = false ->
      location s' = location s
      /\ error (ui s') = "Failed to sign in with Google.").
Proof.
  cbv zeta. run. project.
  destruct (Auth.googleSignIn _) as [[[]|e] a]; project;
    repeat split; try done; by issued_goal.
Qed.

(** X8.  After a forgot-password submission the screen shows one banner,
    never two, and never a stale one: exactly one reset call was issued,
    with the submitted email; if it resolved the success message shows and
    the error is empty; if it was rejected the failure message shows and
    the success message is empty.  The loading flag is cleared and the
    screen does not navigate. *)
Theorem forgot_password_one_banner
    (d : ForgotPassword.ForgotPasswordFormData) (s : Sys A) :
  let r := Auth.resetPassword (ForgotPassword.email d) (auth s) in
  let s' := snd (ForgotPassword.onSubmit d s) in
  issued s s' = [(CallResetPassword (ForgotPassword.email d), resolved (fst r))]
  /\ isLoading (ui s') = false
  /\ location s' = location s
  /\ (resolved (fst r) = true ->
      Runtime.message (ui s')
        = "Check your inbox for password reset instructions."
      /\ error (ui s') = "")
  /\ (resolved (fst r) = false ->
      Runtime.message (ui s') = ""
      /\ error (ui s')
         = "Failed to reset password. Please check your email address.").
Proof.
  cbv zeta. run. project.
  destruct (Auth.resetPassword _ _) as [[[]|e] a]; project;
    repeat split; try done; by issued_goal.
Qed.

(** X23.  Signing out issues exactly one call and never touches the loading
    flag, the success message or the hosted services; the handler settles
    normally.  When the call resolves the screen navigates to /login and
    its cells are as they were; when it is rejected the location stays and
    the log-out failure message shows. *)
Theorem logout_outcomes (s : Sys A) :
  let r := Auth.logout (auth s) in
  let s' := snd (Profile.handleLogout s) in
  fst (Profile.handleLogout s) = Resolved tt
  /\ issued s s' = [(CallLogout, resolved (fst r))]
  /\ auth s' = snd r
  /\ services s' = services s
  /\ isLoading (ui s') = isLoading (ui s)
  /\ Runtime.message (ui s') = Runtime.message (ui s)
  /\ (resolved (fst r) = true -> location s' = "/login" /\ ui s' = ui s)
  /\ (resolved (fst r) = false ->
      location s' = location s /\ error (ui s') = "Failed to log out.").
Proof.
  cbv zeta. run. project.
  destruct (Auth.logout _) as [[[]|e] a]; project;
    repeat split; try done; by issued_goal.
Qed.

(** X15.  After a profile save the screen shows one banner, never two, and
    never a stale one: either the success message with an empty error,
    and then every call the save issued resolved; or the failure message
    with an empty success message, and then some call was rejected. *)
Theorem profile_save_one_banner (d : ProfileFormData) (s : Sys A) :
  let s' := snd (Profile.onSubmit d s) in
  (Runtime.message (ui s') = "Profile updated successfully!"
   /\ error (ui s') = ""
   /\ Forall (fun x => snd x = true) (issued s s'))
  \/ (Runtime.message (ui s') = ""
      /\ error (ui s') = "Failed to update profile."
      /\ some_rejected (issued s s')).
Proof.
  cbv zeta. run. project.
  destruct (Auth.updateUserProfile _ _ _) as [[[]|e] a]; project.
  - destruct (currentUser (auth s)) as [cu|]; project.
    + unfold Firebase.setDoc_merge. project.
      destruct (outage (services s) SetDoc); project.
      * right. repeat split. eexists. issued_goal.
        apply list_elem_of_further, list_elem_of_here.
      * left. repeat split. issued_goal. by repeat constructor.
    + left. repeat split. issued_goal. by repeat constructor.
  - right. repeat split. eexists. issued_goal. apply list_elem_of_here.
Qed.

(** X16.  A profile save updates the identity first and the record second,
    and undoes nothing.  If the identity update is rejected no write is
    attempted and the hosted services are untouched.  If it resolves and
    the record write is then rejected, the identity update stands, the
    stored records are as they were, and the failure message shows. *)
Theorem profile_save_order (d : ProfileFormData) (s : Sys A) :
  let photo := or_undefined (profileImage (ui s)) in
  let r := Auth.updateUserProfile (username d) photo (auth s) in
  let s' := snd (Profile.onSubmit d s) in
  (resolved (fst r) = false ->
   issued s s' = [(CallUpdateUserProfile (username d) photo, false)]
   /\ services s' = services s
   /\ auth s' = snd r)
  /\ (forall cu,
        resolved (fst r) = true ->
        currentUser (auth s) = Some cu ->
        outage (services s) SetDoc = true ->
        issued s s'
          = [(CallUpdateUserProfile (username d) photo, true);
             (CallSetDoc (uid cu)
                (Profile.record d (profileImage (ui s)) cu (clock s)), false)]
        /\ auth s' = snd r
        /\ services s' = services s
        /\ error (ui s') = "Failed to update profile.").
Proof.
  cbv zeta. run. project.
  destruct (Auth.updateUserProfile _ _ _) as [[[]|e] a]; project.
  - split; [discriminate|]. intros cu _ -> Hout.
    unfold Firebase.setDoc_merge. project. rewrite Hout. project.
    repeat split. by issued_goal.
  - split; [|discriminate]. intros _. repeat split. by issued_goal.
Qed.

(** X17.  With no current user the record write is skipped: when the
    identity update resolves, the save issues that one call, leaves the
    hosted services untouched, and still shows the success message. *)
Theorem profile_save_without_user (d : ProfileFormData) (s : Sys A) :
  currentUser (auth s) = None ->
  resolved (fst (Auth.updateUserProfile (username d)
                   (or_undefined (profileImage (ui s))) (auth s))) = true ->
  let s' := snd (Profile.onSubmit d s) in
  services s' = services s
  /\ issued s s'
     = [(CallUpdateUserProfile (username d)
           (or_undefined (profileImage (ui s))), true)]
  /\ Runtime.message (ui s') = "Profile updated successfully!"
  /\ error (ui s') = "".
Proof.
  intros Hcu Hup. cbv zeta. run. project. rewrite Hcu.
  destruct (Auth.updateUserProfile _ _ _) as [[[]|e] a]; [|discriminate].
  project. repeat split. by issued_goal.
Qed.

(** X19.  Choosing a photo changes the preview at most: whatever the file
    and whatever the storage answers, the handler leaves the success
    message, the form values, the fetching flag, the field errors, the
    location, the auth context and the stored profile records as they
    were.  The photo reaches the record only with the next save. *)
Theorem image_change_leaves_profile_alone (f : option File) (s : Sys A) :
  let s' := snd (Profile.handleImageChange f s) in
  Runtime.message (ui s') = Runtime.message (ui s)
  /\ formValues (ui s') = formValues (ui s)
  /\ fetchingUserData (ui s') = fetchingUserData (ui s)
  /\ location s' = location s
  /\ formErrors s' = formErrors s
  /\ auth s' = auth s
  /\ users (services s') = users (services s).
Proof.
  cbv zeta. destruct f as [f|]; run; [|done].
  destruct (negb (startsWith (js "image/") (type f))); [done|].
  destruct (5 * 1024 * 1024 <? size f); [done|].
  unfold Firebase.uploadBytes, Firebase.getDownloadURL. project.
  destruct (outage (services s) UploadBytes); [done|]. project.
  destruct (outage (services s) GetDownloadURL); [done|].
  by destruct (_ !! _).
Qed.

(** X22.  The Profile screen keeps to the record of the signed-in user.
    Every call issued by the fetch, the save, the photo handler and the
    sign-out is on that user's behalf: a document read or write carries
    that user's id, a storage call goes under that user's folder, and no
    sign-in, sign-up or reset call is ever made; and the documents of every
    other id are left as they were.  With nobody signed in the fetch issues
    no call at all. *)
Theorem profile_touches_only_own_record (s : Sys A) :
  keeps_to_own_record s (snd (Profile.fetchUserData s))
  /\ (forall d, keeps_to_own_record s (snd (Profile.onSubmit d s)))
  /\ (forall f, keeps_to_own_record s (snd (Profile.handleImageChange f s)))
  /\ keeps_to_own_record s (snd (Profile.handleLogout s))
  /\ (currentUser (auth s) = None ->
      issued s (snd (Profile.fetchUserData s)) = []).
Proof.
  unfold keeps_to_own_record. split; [|split; [|split; [|split]]].
  - run. destruct (currentUser (auth s)) as [cu|] eqn:Hcu.
    + unfold Firebase.getDoc. project.
      destruct (outage (services s) GetDoc); project.
      * split; [|done]. issued_goal. repeat constructor. by exists cu.
      * destruct (users (services s) !! uid cu) as [d|]; project.
        -- destruct (or_undefined (Profile.str_field d "photoURL")); project;
             [|unfold Profile.setProfileImage_if;
               destruct (or_undefined (photoURL cu)); project];
             (split; [|done]; issued_goal; repeat constructor; by exists cu).
        -- unfold Profile.setProfileImage_if.
           destruct (or_undefined (photoURL cu)); project;
             (split; [|done]; issued_goal; repeat constructor; by exists cu).
    + project. split; [|done]. issued_goal. constructor.
  - intros d. run. project.
    destruct (Auth.updateUserProfile _ _ _) as [[[]|e] a]; project.
    + destruct (currentUser (auth s)) as [cu|] eqn:Hcu; project.
      * unfold Firebase.setDoc_merge. project.
        destruct (outage (services s) SetDoc); project.
        -- split; [|done]. issued_goal. repeat constructor. by exists cu.
        -- split.
           ++ issued_goal. repeat constructor. by exists cu.
           ++ intros id Hid. apply lookup_insert_ne. intros <-.
              by apply (Hid cu).
      * split; [|done]. issued_goal. by repeat constructor.
    + split; [|done]. issued_goal. by repeat constructor.
  - intros [f|]; run; [|split; [issued_goal; constructor|done]].
    destruct (negb (startsWith (js "image/") (type f)));
      [split; [issued_goal; constructor|done]|].
    destruct (5 * 1024 * 1024 <? size f);
      [split; [issued_goal; constructor|done]|].
    unfold Firebase.uploadBytes, Firebase.getDownloadURL. project.
    pose proof (photoPath_in_folder (currentUser (auth s)) (clock s) f) as Hin.
    destruct (outage (services s) UploadBytes); project;
      [split; [issued_goal; by repeat constructor|done]|].
    destruct (outage (services s) GetDownloadURL); project;
      [split; [issued_goal; by repeat constructor|done]|].
    destruct (_ !! _); project;
      (split; [issued_goal; by repeat constructor|done]).
  - run. project.
    destruct (Auth.logout _) as [[[]|e] a]; project;
      (split; [issued_goal; by repeat constructor|done]).
  - intros Hcu. run. rewrite Hcu. project. by issued_goal.
Qed.

End HandlerProperties.

(** ** The states a save and an upload leave *)

Section Transitions.

Import JS Auth Firebase Runtime Zod Observe Shape.

Context {A : Type} `{AC : AuthContext A}.

(** The state a save leaves when both of its calls go through. *)
Lemma onSubmit_saved (d : ProfileFormData) (cu : User) (a' : A) (s : Sys A) :
  currentUser (auth s) = Some cu ->
  Auth.updateUserProfile (username d)
    (or_undefined (profileImage (ui s))) (auth s) = (Resolved tt, a') ->
  outage (services s) SetDoc = false ->
  let data := Profile.record d (profileImage (ui s)) cu (clock s) in
  snd (Profile.onSubmit d s)
  = {| ui := {| error := ""; Runtime.message := "Profile updated successfully!";
                isLoading := false;
                profileImage := profileImage (ui s);
                fetchingUserData := fetchingUserData (ui s);
                formValues := formValues (ui s) |};
       formErrors := formErrors s;
       location := location s;
       auth := a';
       services :=
         with_users
           (fun u => <[uid cu := merge data (default ∅ (u !! uid cu))]> u)
           (services s);
       clock := clock s;
       calls := (calls s
                 ++ [(CallUpdateUserProfile (username d)
                        (or_undefined (profileImage (ui s))), true)])
                ++ [(CallSetDoc (uid cu) data, true)] |}.
Proof.
  intros Hcu Hupd Hset. cbv zeta. run. project. rewrite Hupd, Hcu.
  unfold Firebase.setDoc_merge. project. rewrite Hset. reflexivity.
Qed.

(** The state a photo selection leaves when the upload goes through. *)
Lemma handleImageChange_uploaded (f : File) (s : Sys A) :
  startsWith (js "image/") (type f) = true ->
  size f <= 5 * 1024 * 1024 ->
  outage (services s) UploadBytes = false ->
  outage (services s) GetDownloadURL = false ->
  let fileRef := Profile.photoPath (currentUser (auth s)) (clock s) f in
  snd (Profile.handleImageChange (Some f) s)
  = {| ui := {| error := error (ui s); Runtime.message := Runtime.message (ui s);
                isLoading := false;
                profileImage := Some (downloadURL (services s) fileRef);
                fetchingUserData := fetchingUserData (ui s);
                formValues := formValues (ui s) |};
       formErrors := formErrors s;
       location := location s;
       auth := auth s;
       services := with_bucket (fun o => <[fileRef := f]> o) (services s);
       clock := clock s;
       calls := (calls s ++ [(CallUploadBytes fileRef f, true)])
                ++ [(CallGetDownloadURL fileRef, true)] |}.
Proof.
  intros Himg Hsize Hup Hurl. cbv zeta. run. rewrite Himg. cbn [negb].
  destruct (Z.ltb_spec (5 * 1024 * 1024) (size f)); [lia|].
  unfold Firebase.uploadBytes, Firebase.getDownloadURL. project.
  rewrite Hup. project. rewrite Hurl, lookup_insert_eq. reflexivity.
Qed.

End Transitions.

(** ** Reading and writing the profile record *)

Section RecordProperties.

Import JS Auth Firebase Runtime Zod Observe Shape.

Context {A : Type} `{AC : AuthContext A}.

(** X12.  Fetching the profile of a user with no stored record is not an
    error: one read is issued, nothing is written, the form is reset to the
    defaults (display name or the empty string as username, the other
    fields empty), the preview becomes the identity's photo when it has a
    non-empty one and is otherwise left alone, the fetching flag is
    cleared, and error and message are untouched. *)
Theorem fetch_absent_record (cu : User) (s : Sys A) :
  currentUser (auth s) = Some cu ->
  outage (services s) GetDoc = false ->
  users (services s) !! uid cu = None ->
  let s' := snd (Profile.fetchUserData s) in
  fst (Profile.fetchUserData s) = Resolved tt
  /\ issued s s' = [(CallGetDoc (uid cu), true)]
  /\ services s' = services s
  /\ formValues (ui s') = Profile.defaultValues (Some cu)
  /\ profileImage (ui s')
     = match or_undefined (photoURL cu) with
       | Some url => Some url
       | None => profileImage (ui s)
       end
  /\ fetchingUserData (ui s') = false
  /\ error (ui s') = error (ui s)
  /\ Runtime.message (ui s') = Runtime.message (ui s).
Proof.
  intros Hcu Hget Hnone. cbv zeta. run. rewrite Hcu.
  unfold Firebase.getDoc. project. rewrite Hget. project. rewrite Hnone.
  project. destruct (or_undefined (photoURL cu)); project;
    repeat split; by issued_goal.
Qed.

(** X13.  The fetch copes with a stored record of any shape.  Whatever
    fields the record holds, one read is issued, nothing is written, no
    error is set and the fetching flag is cleared.  Each form field shows
    the stored string when there is one and it is not empty; a field that
    is missing, null or empty shows its fallback: the identity's display
    name for the username, the empty string for the others.  The preview
    is the stored photo, else the identity's photo, else what it was. *)
Theorem fetch_tolerates_any_record
    (cu : User) (d : gmap string FieldValue) (s : Sys A) :
  currentUser (auth s) = Some cu ->
  outage (services s) GetDoc = false ->
  users (services s) !! uid cu = Some d ->
  let s' := snd (Profile.fetchUserData s) in
  fst (Profile.fetchUserData s) = Resolved tt
  /\ issued s s' = [(CallGetDoc (uid cu), true)]
  /\ services s' = services s
  /\ fetchingUserData (ui s') = false
  /\ error (ui s') = error (ui s)
  /\ formValues (ui s')
     = {| username := shown (d !! "username") (or_else (displayName cu) []);
          dob := shown (d !! "dob") [];
          mobileNumber := shown (d !! "mobileNumber") [];
          address := shown (d !! "address") [] |}
  /\ profileImage (ui s')
     = match shown (d !! "photoURL") (or_else (photoURL cu) []) with
       | [] => profileImage (ui s)
       | url => Some url
       end.
Proof.
  intros Hcu Hget Hd. cbv zeta. run. rewrite Hcu.
  unfold Firebase.getDoc. project. rewrite Hget. project. rewrite Hd.
  project. rewrite <- !or_else_str_field.
  unfold Profile.setProfileImage_if.
  destruct (Profile.str_field d "photoURL") as [[|c x]|];
    cbn [or_undefined or_else truthy];
    try (destruct (photoURL cu) as [[|c' x']|]; cbn [or_undefined truthy]);
    project; repeat split; by issued_goal.
Qed.

(** X14.  What is saved is what the next fetch shows.  After a save of
    values that pass the profile schema has gone through, a fetch for the
    same user (same id, document store readable) resets the form to exactly
    the saved values, clears the fetching flag, shows no error, and, when
    the save carried a non-empty photo reference, makes it the preview. *)
Theorem save_then_fetch_round_trip
    (d : ProfileFormData) (cu cu' : User) (a' : A) (s : Sys A) :
  Profile.profileSchema d = Success d ->
  currentUser (auth s) = Some cu ->
  Auth.updateUserProfile (username d)
    (or_undefined (profileImage (ui s))) (auth s) = (Resolved tt, a') ->
  currentUser a' = Some cu' ->
  uid cu' = uid cu ->
  outage (services s) SetDoc = false ->
  outage (services s) GetDoc = false ->
  let s1 := snd (Profile.onSubmit d s) in
  let s2 := snd (Profile.fetchUserData s1) in
  formValues (ui s2) = d
  /\ fetchingUserData (ui s2) = false
  /\ error (ui s2) = ""
  /\ (forall url, or_undefined (profileImage (ui s)) = Some url ->
                  profileImage (ui s2) = Some url).
Proof.
  intros Hvalid Hcu Hupd Hcu' Huid Hset Hget.
  destruct (profile_valid_fields d Hvalid) as (Hu & Hd & Hm & Ha).
  cbv zeta. run. project. rewrite Hupd, Hcu.
  unfold Firebase.setDoc_merge. project. rewrite Hset. project.
  rewrite Hcu'. unfold Firebase.getDoc. project. rewrite Hget. project.
  rewrite Huid, lookup_insert_eq. unfold merge, Profile.str_field.
  repeat match goal with
  | |- context [(Profile.record ?a ?b ?c ?t ∪ ?m) !! ?k] =>
      let H := fresh in
      assert (exists v, Profile.record a b c t !! k = Some v
                        /\ (Profile.record a b c t ∪ m) !! k = Some v)
        as (? & H & ->)
        by (eexists; split; [|apply lookup_union_Some_l];
            unfold Profile.record;
            repeat (rewrite lookup_insert_ne by done);
            apply lookup_insert_eq);
      unfold Profile.record in H;
      repeat (rewrite lookup_insert_ne in H by done);
      rewrite lookup_insert_eq in H; injection H as <-
  end.
  unfold or_else. rewrite Hu, Hd, Hm, Ha.
  destruct (profileImage (ui s)) as [img|] eqn:Himg;
    cbn [Profile.nullable or_undefined].
  - destruct (truthy img) eqn:Ht; project.
    + repeat split; try by destruct d.
    + unfold Profile.setProfileImage_if.
      destruct (or_undefined (photoURL cu')); project;
        repeat split; try by destruct d.
  - unfold Profile.setProfileImage_if.
    destruct (or_undefined (photoURL cu')); project;
      repeat split; try by destruct d.
Qed.

(** X18.  Of two saves in a row, the later one wins on every field the form
    writes: when both go through for the same user, the second at the
    instant [t], the stored record is the one a single save of the second
    values at [t] would have left over the record stored before both.  The
    first save leaves no trace, whatever time passed in between. *)
Theorem successive_saves_last_wins
    (d1 d2 : ProfileFormData) (cu cu1 : User) (a1 a2 : A) (t : Z)
    (s : Sys A) :
  let img := profileImage (ui s) in
  currentUser (auth s) = Some cu ->
  Auth.updateUserProfile (username d1) (or_undefined img) (auth s)
    = (Resolved tt, a1) ->
  currentUser a1 = Some cu1 ->
  uid cu1 = uid cu ->
  Auth.updateUserProfile (username d2) (or_undefined img) a1
    = (Resolved tt, a2) ->
  outage (services s) SetDoc = false ->
  let s1 := at_time t (snd (Profile.onSubmit d1 s)) in
  let s2 := snd (Profile.onSubmit d2 s1) in
  users (services s2)
  = <[uid cu := Profile.record d2 img cu1 t
                ∪ default ∅ (users (services s) !! uid cu)]>
      (users (services s))
  /\ Runtime.message (ui s2) = "Profile updated successfully!".
Proof.
  cbv zeta. intros Hcu Hup1 Hcu1 Huid Hup2 Hset.
  rewrite (onSubmit_saved d1 cu a1 s Hcu Hup1 Hset).
  rewrite (onSubmit_saved d2 cu1 a2); [|exact Hcu1|exact Hup2|exact Hset].
  unfold at_time. project. split; [|done].
  rewrite Huid, lookup_insert_eq. cbn [default id].
  unfold merge. rewrite record_covers. apply insert_insert_eq.
Qed.

(** X21.  A photo chosen and then saved: after an upload that went through,
    a save whose identity update resolves sends that update with the URL
    the upload returned, and the uploaded file is still stored under its
    key.  If the record write goes through, the record's photoURL is that
    URL; if it is rejected, the stored records are as they were and the
    failure message shows, while the file stays in the bucket. *)
Theorem upload_then_save
    (f : File) (d : ProfileFormData) (cu : User) (s : Sys A) :
  let fileRef := Profile.photoPath (Some cu) (clock s) f in
  let url := downloadURL (services s) fileRef in
  let s1 := snd (Profile.handleImageChange (Some f) s) in
  let s2 := snd (Profile.onSubmit d s1) in
  startsWith (js "image/") (type f) = true ->
  size f <= 5 * 1024 * 1024 ->
  currentUser (auth s) = Some cu ->
  outage (services s) UploadBytes = false ->
  outage (services s) GetDownloadURL = false ->
  resolved (fst (Auth.updateUserProfile (username d) (or_undefined (Some url))
                   (auth s))) = true ->
  bucket (services s2) !! fileRef = Some f
  /\ (CallUpdateUserProfile (username d) (or_undefined (Some url)), true)
       ∈ issued s1 s2
  /\ (outage (services s) SetDoc = false ->
      exists saved,
        users (services s2) !! uid cu = Some saved
        /\ saved !! "photoURL" = Some (VString url))
  /\ (outage (services s) SetDoc = true ->
      users (services s2) = users (services s)
      /\ error (ui s2) = "Failed to update profile.").
Proof.
  cbv zeta. intros Himg Hsize Hcu Hup Hurl Hprof.
  rewrite (handleImageChange_uploaded f s Himg Hsize Hup Hurl).
  rewrite Hcu in *.
  set (url := downloadURL (services s) _) in *.
  set (fileRef := Profile.photoPath _ _ _) in *.
  run. project.
  destruct (Auth.updateUserProfile _ _ _) as [[[]|e] a]; [|discriminate].
  project. rewrite Hcu. unfold Firebase.setDoc_merge. project.
  destruct (outage (services s) SetDoc) eqn:Hset; project.
  - split; [apply lookup_insert_eq|]. split.
    + unfold issued. cbn [calls].
      match goal with
      | |- context [drop (length ?p) _] =>
          rewrite <- (app_assoc p), drop_app_length
      end.
      apply list_elem_of_here.
    + split; [discriminate|]. done.
  - split; [apply lookup_insert_eq|]. split.
    + unfold issued. cbn [calls].
      match goal with
      | |- context [drop (length ?p) _] =>
          rewrite <- (app_assoc p), drop_app_length
      end.
      apply list_elem_of_here.
    + split; [|discriminate]. intros _. eexists.
      split; [apply lookup_insert_eq|]. unfold merge.
      apply lookup_union_Some_l. unfold Profile.record.
      repeat (rewrite lookup_insert_ne by done). apply lookup_insert_eq.
Qed.

End RecordProperties.

(** ** Instances of the further properties *)

Section FurtherInstances.

Import JS Auth Firebase Runtime Zod Observe Shape.

(** X4 on bob's sign-up values, which pass the sign-up schema. *)
Lemma schemas_agree_across_screens_witness :
  SignUp.signUpSchema Sample.bob = Success Sample.bob
  /\ Login.loginSchema {| Login.email := SignUp.email Sample.bob;
                          Login.password := SignUp.password Sample.bob |}
     = Success {| Login.email := SignUp.email Sample.bob;
                  Login.password := SignUp.password Sample.bob |}.
Proof.
  assert (SignUp.signUpSchema Sample.bob = Success Sample.bob) as Hok
    by (vm_compute; reflexivity).
  split; [exact Hok|].
  apply (proj1 (schemas_agree_across_screens Sample.bob Hok)).
Defined.

(** X5 on " 18 ": a blank on either side of "18". *)
Lemma age_ignores_surrounding_blanks_witness :
  SignUp.age_check (js " " ++ js "18" ++ js " ") = SignUp.age_check (js "18").
Proof.
  assert (blank (js " ")) as Hblank
    by (constructor; [reflexivity|constructor]).
  apply (age_ignores_surrounding_blanks (js " ") (js "18") (js " ")
           Hblank Hblank).
Defined.

(** X6 on " -5". *)
Lemma age_rejects_leading_minus_witness :
  SignUp.age_check (js " " ++ 45%N :: js "5") = false.
Proof.
  assert (blank (js " ")) as Hblank
    by (constructor; [reflexivity|constructor]).
  apply (age_rejects_leading_minus (js " ") (js "5") Hblank).
Defined.

(** X12 on the sample profile screen, where no record is stored. *)
Lemma fetch_absent_record_witness :
  formValues (ui (snd (Profile.fetchUserData Sample.atProfile)))
  = Profile.defaultValues (Some Sample.alice).
Proof.
  assert (currentUser (auth Sample.atProfile) = Some Sample.alice) as Hcu
    by (vm_compute; reflexivity).
  assert (outage (services Sample.atProfile) GetDoc = false) as Hget
    by reflexivity.
  assert (users (services Sample.atProfile) !! uid Sample.alice = None)
    as Hnone by (vm_compute; reflexivity).
  destruct (fetch_absent_record Sample.alice Sample.atProfile Hcu Hget Hnone)
    as (_ & _ & _ & Hform & _).
  exact Hform.
Defined.

(** X13 on a stored record with a username, a null date of birth, an empty
    address and nothing else. *)
Lemma fetch_tolerates_any_record_witness :
  formValues (ui (snd (Profile.fetchUserData Scenario.atProfileWithRecord)))
  = {| username := js "Ally"; dob := []; mobileNumber := [];
       address := [] |}.
Proof.
  assert (currentUser (auth Scenario.atProfileWithRecord) = Some Sample.alice)
    as Hcu by (vm_compute; reflexivity).
  assert (outage (services Scenario.atProfileWithRecord) GetDoc = false)
    as Hget by reflexivity.
  assert (users (services Scenario.atProfileWithRecord) !! uid Sample.alice
          = Some Scenario.partialRecord) as Hd by (vm_compute; reflexivity).
  destruct (fetch_tolerates_any_record Sample.alice Scenario.partialRecord
              Scenario.atProfileWithRecord Hcu Hget Hd)
    as (_ & _ & _ & _ & _ & Hform & _).
  rewrite Hform. vm_compute. reflexivity.
Defined.

(** X14 on the sample profile screen: alice's values, saved and fetched. *)
Lemma save_then_fetch_round_trip_witness :
  formValues
    (ui (snd (Profile.fetchUserData
                (snd (Profile.onSubmit Sample.aliceProfile
                        Sample.atProfile)))))
  = Sample.aliceProfile.
Proof.
  refine (proj1 (save_then_fetch_round_trip Sample.aliceProfile Sample.alice
                   Sample.alice
                   (snd (Auth.updateUserProfile (js "Alice") None
                           Sample.signedIn))
                   Sample.atProfile _ _ _ _ _ _ _));
    vm_compute; reflexivity.
Defined.

(** X17 on a profile screen with nobody signed in. *)
Lemma profile_save_without_user_witness :
  services (snd (Profile.onSubmit (AC := Scenario.detached)
                   Sample.aliceProfile Scenario.atProfileDetached))
  = Sample.hosted.
Proof.
  refine (proj1 (profile_save_without_user (AC := Scenario.detached)
                   Sample.aliceProfile Scenario.atProfileDetached _ _));
    reflexivity.
Defined.

(** X18 on the sample profile screen: alice saves, and five seconds later
    saves a new address. *)
Lemma successive_saves_last_wins_witness :
  Runtime.message
    (ui (snd (Profile.onSubmit Scenario.aliceMoved
                (at_time 1700000005000
                   (snd (Profile.onSubmit Sample.aliceProfile
                           Sample.atProfile))))))
  = "Profile updated successfully!".
Proof.
  refine (proj2 (successive_saves_last_wins Sample.aliceProfile
                   Scenario.aliceMoved Sample.alice Sample.alice
                   (snd (Auth.updateUserProfile (js "Alice") None
                           Sample.signedIn))
                   (snd (Auth.updateUserProfile (js "Alice") None
                           (snd (Auth.updateUserProfile (js "Alice") None
                                   Sample.signedIn))))
                   1700000005000 Sample.atProfile _ _ _ _ _ _));
    vm_compute; reflexivity.
Defined.

(** X20 on two files of the same name and different sizes, chosen at the
    same instant. *)
Lemma photo_key_determines_time_and_name_witness :
  1700000000000 = 1700000000000
  /\ name Sample.png2MB = name Sample.png6MB.
Proof.
  apply (photo_key_determines_time_and_name (Some Sample.alice)
           1700000000000 1700000000000 Sample.png2MB Sample.png6MB);
    [lia | lia | reflexivity].
Defined.

(** X21 on the sample profile screen: a 2 MB PNG, then alice's values. *)
Lemma upload_then_save_witness :
  bucket
    (services
       (snd (Profile.onSubmit Sample.aliceProfile
               (snd (Profile.handleImageChange (Some Sample.png2MB)
                       Sample.atProfile)))))
  !! Profile.photoPath (Some Sample.alice) (clock Sample.atProfile)
       Sample.png2MB
  = Some Sample.png2MB.
Proof.
  refine (proj1 (upload_then_save Sample.png2MB Sample.aliceProfile
                   Sample.alice Sample.atProfile _ _ _ _ _ _));
    try (vm_compute; reflexivity).
  vm_compute. discriminate.
Defined.

End FurtherInstances.
